(** * Implementation deployment orchestrator of the Hardhat upgrades plugin

    A shallow embedding of
    [packages/plugin-hardhat/src/utils/deploy-impl.ts]: [getDeployData],
    [deployProxyImpl], [deployBeaconImpl] and [deployImpl].

    The orchestrator is straight-line asynchronous code over a set of
    collaborators imported from [@openzeppelin/upgrades-core], [ethers] and
    sibling modules.  It is embedded in a small monad that threads the
    external state, stops at the first exception (the source has no
    [try]/[catch]) and records every collaborator call, with its answer, in
    a trace. *)

From Stdlib Require Import String List Bool Arith Lia.
Import ListNotations.
Local Open Scope list_scope.

(** ** Data model *)

(** [ValidationOptions['kind']]. *)
Inductive ProxyKind : Type := transparent | uups | beacon.

Definition ProxyKind_eqb (a b : ProxyKind) : bool :=
  match a, b with
  | transparent, transparent | uups, uups | beacon, beacon => true
  | _, _ => false
  end.

(** Modelled from the spec: the type [Version] of upgrades-core is only
    imported by the source; section 3 gives it as a triple of hashes over
    the unlinked bytecode, the linked bytecode and the encoded constructor
    arguments. *)
Record Version : Type := mkVersion {
  withMetadata : string;
  withoutMetadata : string;
  linkedWithMetadata : string
}.

Definition Version_eqb (a b : Version) : bool :=
  String.eqb (withMetadata a) (withMetadata b)
  && String.eqb (withoutMetadata a) (withoutMetadata b)
  && String.eqb (linkedWithMetadata a) (linkedWithMetadata b).

(** Modelled from the spec: the typed failures named in sections 4 and 7;
    [OrphanedDeploymentError] is the manifest write that fails after the
    deployment went through, and carries the deployed address;
    [ExternalError] stands for whatever else a collaborator throws
    (network, filesystem or transaction failures). *)
Inductive UpgradesError : Type :=
| AmbiguousBytecodeError
| UnknownVersionError
| UnrecordedImplementationError
| UpgradeSafetyError (violated : list string)
| StorageLayoutError (fields : list string)
| ProxyKindMismatchError
| NotABeaconTargetError
| OrphanedDeploymentError (address : string)
| ExternalError (message : string).

(** What a call gives back: a value, or the exception it threw. *)
Inductive Result (A : Type) : Type :=
| Ok (a : A)
| Err (e : UpgradesError).
Arguments Ok {A} a.
Arguments Err {A} e.

Definition isOk {A} (r : Result A) : bool :=
  match r with Ok _ => true | Err _ => false end.

(** The types the source imports and never looks into. *)
Class ExternalTypes : Type := {
  HardhatRuntimeEnvironment : Type;
  EthereumProvider : Type;
  ContractFactory : Type;
  ValidationDataCurrent : Type;
  StorageLayout : Type;
  ConstructorArg : Type;
  TransactionResponse : Type;
  Manifest : Type;
  (** the state of everything outside the process that is not the
      manifest: the chain behind the provider and the project's files *)
  Env : Type
}.

Section DataModel.
Context {T : ExternalTypes}.

(** [Options] (with [PrepareUpgradeOptions]); every field is optional in
    the source.  Section 6 of the spec lists the fields consumed. *)
Record Options : Type := mkOptions {
  constructorArgs : option (list ConstructorArg);
  unsafeAllow : option (list string);
  unsafeSkipStorageCheck : option bool;
  kind : option ProxyKind;
  getTxResponse : option bool
}.

(** [Required<Options>]. *)
Record RequiredOptions : Type := mkRequiredOptions {
  req_constructorArgs : list ConstructorArg;
  req_unsafeAllow : list string;
  req_unsafeSkipStorageCheck : bool;
  req_kind : ProxyKind;
  req_getTxResponse : bool
}.

(** [interface DeployData]. *)
Record DeployData : Type := mkDeployData {
  provider : EthereumProvider;
  validations : ValidationDataCurrent;
  unlinkedBytecode : string;
  encodedArgs : string;
  version : Version;
  layout : StorageLayout;
  fullOpts : RequiredOptions
}.

(** What [deploy] of [./deploy] resolves to. *)
Record DeployResult : Type := mkDeployResult {
  dr_address : string;
  dr_txHash : option string;
  dr_deployTransaction : option TransactionResponse
}.

(** The object the deploy callback builds and [fetchOrDeployGetDeployment]
    resolves to; [deployTransaction = None] is the key being absent. *)
Record Deployment : Type := mkDeployment {
  abi : list string;
  address : string;
  txHash : option string;
  deployTransaction : option TransactionResponse;
  dep_layout : StorageLayout
}.

(** Modelled from the spec: [DeploymentRecord], section 3:
    [{ address, txHash?, layout, abi }], persisted per [Version]. *)
Record DeploymentRecord : Type := mkDeploymentRecord {
  rec_address : string;
  rec_txHash : option string;
  rec_layout : StorageLayout;
  rec_abi : list string
}.

(** Modelled from the spec: the manifest of the active network as the
    durable map from [Version] to [DeploymentRecord] (section 3). *)
Definition ManifestData : Type := list (Version * DeploymentRecord).

(** [txResponse] is either the transaction kept by a fresh deployment or
    the promise [getTransaction] returned, which the source does not
    await. *)
Inductive TxResponse : Type :=
| TxDirect (t : TransactionResponse)
| TxPromise (p : Result TransactionResponse).

(** [DeployedProxyImpl] and [DeployedBeaconImpl]: [deployImpl] builds the
    same object for both. *)
Record DeployedImpl : Type := mkDeployedImpl {
  impl : string;
  impl_kind : option ProxyKind;
  txResponse : option TxResponse
}.

(** ** Trace of collaborator calls *)

Inductive Event : Type :=
| EReadValidations (hre : HardhatRuntimeEnvironment)
    (r : Result ValidationDataCurrent)
| EGetUnlinkedBytecode (v : ValidationDataCurrent) (bytecode : string)
    (r : Result string)
| EEncodeDeploy (f : ContractFactory) (args : option (list ConstructorArg))
    (r : Result string)
| EGetVersion (unlinked linked args : string) (r : Result Version)
| EGetStorageLayout (v : ValidationDataCurrent) (ver : Version)
    (r : Result StorageLayout)
| EWithDefaults (opts : Options) (r : RequiredOptions)
| EProcessProxyKind (p : EthereumProvider) (proxyAddress : option string)
    (opts : Options) (v : ValidationDataCurrent) (ver : Version)
    (r : Result (option ProxyKind))
| EGetImplementationAddress (p : EthereumProvider) (proxyAddress : string)
    (r : Result string)
| EAssertNotProxy (p : EthereumProvider) (beaconAddress : string)
    (r : Result unit)
| EGetImplementationAddressFromBeacon (p : EthereumProvider)
    (beaconAddress : string) (r : Result string)
| EAssertUpgradeSafe (v : ValidationDataCurrent) (ver : Version)
    (o : RequiredOptions) (r : Result unit)
| EManifestForNetwork (p : EthereumProvider) (r : Result Manifest)
| EGetStorageLayoutForAddress (m : Manifest) (v : ValidationDataCurrent)
    (implAddress : string) (r : Result StorageLayout)
| EAssertStorageUpgradeSafe (oldLayout newLayout : StorageLayout)
    (o : RequiredOptions) (r : Result unit)
| EFetchOrDeployGetDeployment (ver : Version) (p : EthereumProvider)
    (opts : Options)
| EManifestGet (ver : Version) (r : option DeploymentRecord)
| EFormatMinimal (f : ContractFactory) (r : Result (list string))
| EDeploy (f : ContractFactory) (args : list ConstructorArg)
    (r : Result DeployResult)
| EManifestInsert (ver : Version) (rec : DeploymentRecord) (r : Result unit)
| EGetTransaction (hre : HardhatRuntimeEnvironment) (hash : string)
    (r : Result TransactionResponse).

(** ** The monad: external state, first exception wins, trace *)

(** [manifest] is the manifest of the network the run is connected to,
    the one [hre.network.provider] leads to. *)
Record State : Type := mkState {
  env : Env;
  manifest : ManifestData
}.

Definition M (A : Type) : Type := State -> Result A * State * list Event.

Definition ret {A} (a : A) : M A := fun s => (Ok a, s, []).

Definition bind {A B} (m : M A) (f : A -> M B) : M B :=
  fun s =>
    match m s with
    | (Ok a, s1, t1) =>
        match f a s1 with
        | (r, s2, t2) => (r, s2, t1 ++ t2)
        end
    | (Err e, s1, t1) => (Err e, s1, t1)
    end.

Definition throw {A} (e : UpgradesError) : M A := fun s => (Err e, s, []).

(** A synchronous collaborator: no access to the external state. *)
Definition sync {A} (ev : Result A -> Event) (r : Result A) : M A :=
  fun s => (r, s, [ev r]).

(** An awaited collaborator that reads the external state. *)
Definition await {A} (ev : Result A -> Event) (f : Env -> Result A) : M A :=
  fun s => let r := f (env s) in (r, s, [ev r]).

(** An awaited collaborator that also reads the manifest. *)
Definition awaitManifest {A} (ev : Result A -> Event)
    (f : Env -> ManifestData -> Result A) : M A :=
  fun s => let r := f (env s) (manifest s) in (r, s, [ev r]).

(** An awaited collaborator that changes the external state. *)
Definition awaitTx {A} (ev : Result A -> Event)
    (f : Env -> Result A * Env) : M A :=
  fun s =>
    match f (env s) with
    | (r, e') => (r, mkState e' (manifest s), [ev r])
    end.

Definition result {A} (x : Result A * State * list Event) : Result A :=
  fst (fst x).
Definition final {A} (x : Result A * State * list Event) : State :=
  snd (fst x).
Definition trace {A} (x : Result A * State * list Event) : list Event :=
  snd x.

End DataModel.

Declare Scope orchestrator_scope.
Delimit Scope orchestrator_scope with orch.
Notation "x <- m ;; k" := (bind m (fun x => k))
  (at level 100, m at next level, right associativity) : orchestrator_scope.
Notation "m ;;; k" := (bind m (fun _ => k))
  (at level 100, right associativity) : orchestrator_scope.
Local Open Scope orchestrator_scope.

(** ** Collaborators

    Everything the source imports and calls.  A call written without
    [await] in the source is a function of its arguments alone; an awaited
    one also reads the external state; [deploy] changes it. *)
Class Collaborators {T : ExternalTypes} : Type := {
  (** [hre.network.provider] *)
  network_provider : HardhatRuntimeEnvironment -> EthereumProvider;
  (** [ImplFactory.bytecode] *)
  bytecode : ContractFactory -> string;
  (** [readValidations(hre)], awaited *)
  readValidations :
    HardhatRuntimeEnvironment -> Env -> Result ValidationDataCurrent;
  getUnlinkedBytecode : ValidationDataCurrent -> string -> Result string;
  (** [ImplFactory.interface.encodeDeploy(args)] *)
  encodeDeploy :
    ContractFactory -> option (list ConstructorArg) -> Result string;
  getVersion : string -> string -> string -> Result Version;
  getStorageLayout : ValidationDataCurrent -> Version -> Result StorageLayout;
  withDefaults : Options -> RequiredOptions;
  (** the bytecode pattern matching behind [processProxyKind] *)
  classifyProxyKind : EthereumProvider -> string -> Env -> Result ProxyKind;
  (** the bytecode pattern matching behind [assertNotProxy] *)
  matchesProxyPattern : EthereumProvider -> string -> Env -> Result bool;
  getImplementationAddress :
    EthereumProvider -> string -> Env -> Result string;
  getImplementationAddressFromBeacon :
    EthereumProvider -> string -> Env -> Result string;
  assertUpgradeSafe :
    ValidationDataCurrent -> Version -> RequiredOptions -> Result unit;
  (** [Manifest.forNetwork(provider)], awaited *)
  Manifest_forNetwork : EthereumProvider -> Env -> Result Manifest;
  getStorageLayoutForAddress :
    Manifest -> ValidationDataCurrent -> string ->
    Env -> ManifestData -> Result StorageLayout;
  assertStorageUpgradeSafe :
    StorageLayout -> StorageLayout -> RequiredOptions -> Result unit;
  (** [ImplFactory.interface.format(FormatTypes.minimal)] *)
  format_minimal : ContractFactory -> Result (list string);
  (** [deploy(ImplFactory, ...args)] of [./deploy]: sends the deployment
      transaction *)
  deploy :
    ContractFactory -> list ConstructorArg -> Env -> Result DeployResult * Env;
  (** [hre.ethers.provider.getTransaction(txHash)] *)
  getTransaction :
    HardhatRuntimeEnvironment -> string -> Env -> Result TransactionResponse;
  (** whether the store behind the manifest takes the write of a record
      (sections 4.5 and 7 of the spec: the write can fail after the
      deployment succeeded) *)
  manifestWriteSucceeds :
    EthereumProvider -> Version -> DeploymentRecord -> Env -> bool
}.

Section Orchestrator.
Context {T : ExternalTypes} {C : Collaborators}.

(** *** Collaborators of upgrades-core modelled from the spec *)

(** Modelled from the spec: [processProxyKind] of upgrades-core, section
    4.4.  On an upgrade it classifies the proxy at [proxyAddress], checks
    the result against the kind requested in the options and fails with
    [ProxyKindMismatchError] when they disagree; the value is [opts.kind]
    as the call leaves it.  Without a proxy address there is nothing to
    classify. *)
Definition processProxyKind_result (p : EthereumProvider)
    (proxyAddress : option string) (opts : Options)
    (v : ValidationDataCurrent) (ver : Version) (e : Env)
    : Result (option ProxyKind) :=
  match proxyAddress with
  | None => Ok (kind opts)
  | Some a =>
      match classifyProxyKind p a e with
      | Err x => Err x
      | Ok found =>
          match kind opts with
          | None => Ok (Some found)
          | Some requested =>
              if ProxyKind_eqb requested found then Ok (Some requested)
              else Err ProxyKindMismatchError
          end
      end
  end.

Definition processProxyKind (p : EthereumProvider)
    (proxyAddress : option string) (opts : Options)
    (v : ValidationDataCurrent) (ver : Version) : M (option ProxyKind) :=
  await (EProcessProxyKind p proxyAddress opts v ver)
        (processProxyKind_result p proxyAddress opts v ver).

(** Modelled from the spec: [assertNotProxy] of upgrades-core, section
    4.4: fails with [NotABeaconTargetError] when the code at the address
    matches a known proxy pattern. *)
Definition assertNotProxy_result (p : EthereumProvider)
    (beaconAddress : string) (e : Env) : Result unit :=
  match matchesProxyPattern p beaconAddress e with
  | Err x => Err x
  | Ok true => Err NotABeaconTargetError
  | Ok false => Ok tt
  end.

Definition assertNotProxy (p : EthereumProvider) (beaconAddress : string)
    : M unit :=
  await (EAssertNotProxy p beaconAddress) (assertNotProxy_result p beaconAddress).

(** Modelled from the spec: the manifest store of section 6, [get] and
    [insertIfAbsent] on the active network's map. *)
Fixpoint manifest_get (ver : Version) (m : ManifestData)
    : option DeploymentRecord :=
  match m with
  | [] => None
  | (v, r) :: rest => if Version_eqb v ver then Some r else manifest_get ver rest
  end.

Definition manifest_insertIfAbsent (ver : Version) (r : DeploymentRecord)
    (m : ManifestData) : ManifestData :=
  match manifest_get ver m with
  | Some _ => m
  | None => m ++ [(ver, r)]
  end.

Definition toRecord (d : Deployment) : DeploymentRecord :=
  mkDeploymentRecord (address d) (txHash d) (dep_layout d) (abi d).

Definition fromRecord (r : DeploymentRecord) : Deployment :=
  mkDeployment (rec_abi r) (rec_address r) (rec_txHash r) None (rec_layout r).

Definition readManifest (ver : Version) : M (option DeploymentRecord) :=
  fun s =>
    let r := manifest_get ver (manifest s) in (Ok r, s, [EManifestGet ver r]).

(** Modelled from the spec: the write of a record, sections 4.5 and 7:
    when the store does not take it the failure is surfaced as
    [OrphanedDeploymentError] with the deployed address, and the manifest
    stays as it was. *)
Definition writeManifest (p : EthereumProvider) (ver : Version)
    (r : DeploymentRecord) : M unit :=
  fun s =>
    if manifestWriteSucceeds p ver r (env s) then
      (Ok tt, mkState (env s) (manifest_insertIfAbsent ver r (manifest s)),
       [EManifestInsert ver r (Ok tt)])
    else
      (Err (OrphanedDeploymentError (rec_address r)), s,
       [EManifestInsert ver r (Err (OrphanedDeploymentError (rec_address r)))]).

Definition emit (ev : Event) : M unit := fun s => (Ok tt, s, [ev]).

(** Modelled from the spec: [fetchOrDeployGetDeployment] of upgrades-core,
    section 4.5.  It looks the version up in the manifest; on a hit it
    returns the stored record without invoking [deployFn]; on a miss it
    invokes [deployFn], records the result under the version, and returns
    it; a record that cannot be written is an [OrphanedDeploymentError]. *)
Definition fetchOrDeployGetDeployment (ver : Version) (p : EthereumProvider)
    (deployFn : M Deployment) (opts : Options) : M Deployment :=
  emit (EFetchOrDeployGetDeployment ver p opts) ;;;
  stored <- readManifest ver ;;
  match stored with
  | Some r => ret (fromRecord r)
  | None =>
      d <- deployFn ;;
      writeManifest p ver (toRecord d) ;;;
      ret d
  end.

(** *** The source *)

Definition getDeployData (hre : HardhatRuntimeEnvironment)
    (ImplFactory : ContractFactory) (opts : Options) : M DeployData :=
  let provider := network_provider hre in
  validations <- await (EReadValidations hre) (readValidations hre) ;;
  unlinkedBytecode <-
    sync (EGetUnlinkedBytecode validations (bytecode ImplFactory))
         (getUnlinkedBytecode validations (bytecode ImplFactory)) ;;
  encodedArgs <-
    sync (EEncodeDeploy ImplFactory (constructorArgs opts))
         (encodeDeploy ImplFactory (constructorArgs opts)) ;;
  version <-
    sync (EGetVersion unlinkedBytecode (bytecode ImplFactory) encodedArgs)
         (getVersion unlinkedBytecode (bytecode ImplFactory) encodedArgs) ;;
  layout <-
    sync (EGetStorageLayout validations version)
         (getStorageLayout validations version) ;;
  fullOpts <-
    sync (fun _ => EWithDefaults opts (withDefaults opts))
         (Ok (withDefaults opts)) ;;
  ret (mkDeployData provider validations unlinkedBytecode encodedArgs
         version layout fullOpts).

(** The arrow function handed to [fetchOrDeployGetDeployment]:
    [Object.assign({ abi }, await deploy(...))] extended with [layout]. *)
Definition deployCallback (deployData : DeployData)
    (ImplFactory : ContractFactory) : M Deployment :=
  abi <- sync (EFormatMinimal ImplFactory) (format_minimal ImplFactory) ;;
  deployment <-
    awaitTx (EDeploy ImplFactory (req_constructorArgs (fullOpts deployData)))
            (deploy ImplFactory (req_constructorArgs (fullOpts deployData))) ;;
  ret (mkDeployment abi (dr_address deployment) (dr_txHash deployment)
         (dr_deployTransaction deployment) (layout deployData)).

(** [opts.unsafeSkipStorageCheck !== true] *)
Definition storageCheckNotSkipped (opts : Options) : bool :=
  match unsafeSkipStorageCheck opts with
  | Some true => false
  | _ => true
  end.

(** [if (opts.getTxResponse)] *)
Definition truthy (b : option bool) : bool :=
  match b with Some true => true | _ => false end.

Definition deployImpl (hre : HardhatRuntimeEnvironment)
    (deployData : DeployData) (ImplFactory : ContractFactory)
    (opts : Options) (currentImplAddress : option string) : M DeployedImpl :=
  sync (EAssertUpgradeSafe (validations deployData) (version deployData)
          (fullOpts deployData))
       (assertUpgradeSafe (validations deployData) (version deployData)
          (fullOpts deployData)) ;;;
  let layout := layout deployData in
  match currentImplAddress with
  | Some currentImplAddress =>
      manifest <-
        await (EManifestForNetwork (provider deployData))
              (Manifest_forNetwork (provider deployData)) ;;
      currentLayout <-
        awaitManifest
          (EGetStorageLayoutForAddress manifest (validations deployData)
             currentImplAddress)
          (getStorageLayoutForAddress manifest (validations deployData)
             currentImplAddress) ;;
      if storageCheckNotSkipped opts then
        sync (EAssertStorageUpgradeSafe currentLayout (layout)
                (fullOpts deployData))
             (assertStorageUpgradeSafe currentLayout (layout)
                (fullOpts deployData))
      else ret tt
  | None => ret tt
  end ;;;
  deployment <-
    fetchOrDeployGetDeployment (version deployData) (provider deployData)
      (deployCallback deployData ImplFactory) opts ;;
  txResponse <-
    (if truthy (getTxResponse opts) then
       match deployTransaction deployment with
       | Some t => ret (Some (TxDirect t))
       | None =>
           match txHash deployment with
           | Some h =>
               fun s =>
                 let r := getTransaction hre h (env s) in
                 (Ok (Some (TxPromise r)), s, [EGetTransaction hre h r])
           | None => ret None
           end
       end
     else ret None) ;;
  ret (mkDeployedImpl (address deployment) (kind opts) txResponse).

(** [processProxyKind] assigns [opts.kind]; the object is shared with
    [deployImpl], which reads the field when it assembles the result. *)
Definition set_kind (opts : Options) (k : option ProxyKind) : Options :=
  mkOptions (constructorArgs opts) (unsafeAllow opts)
    (unsafeSkipStorageCheck opts) k (getTxResponse opts).

Definition deployProxyImpl (hre : HardhatRuntimeEnvironment)
    (ImplFactory : ContractFactory) (opts : Options)
    (proxyAddress : option string) : M DeployedImpl :=
  deployData <- getDeployData hre ImplFactory opts ;;
  k <- processProxyKind (provider deployData) proxyAddress opts
         (validations deployData) (version deployData) ;;
  let opts := set_kind opts k in
  currentImplAddress <-
    match proxyAddress with
    | Some proxyAddress =>
        a <- await (EGetImplementationAddress (provider deployData) proxyAddress)
               (getImplementationAddress (provider deployData) proxyAddress) ;;
        ret (Some a)
    | None => ret None
    end ;;
  deployImpl hre deployData ImplFactory opts currentImplAddress.

Definition deployBeaconImpl (hre : HardhatRuntimeEnvironment)
    (ImplFactory : ContractFactory) (opts : Options)
    (beaconAddress : option string) : M DeployedImpl :=
  deployData <- getDeployData hre ImplFactory opts ;;
  currentImplAddress <-
    match beaconAddress with
    | Some beaconAddress =>
        assertNotProxy (provider deployData) beaconAddress ;;;
        a <- await (EGetImplementationAddressFromBeacon (provider deployData)
                      beaconAddress)
               (getImplementationAddressFromBeacon (provider deployData)
                  beaconAddress) ;;
        ret (Some a)
    | None => ret None
    end ;;
  deployImpl hre deployData ImplFactory opts currentImplAddress.

End Orchestrator.

Arguments processProxyKind_result : simpl never.
Arguments assertNotProxy_result : simpl never.
Arguments storageCheckNotSkipped : simpl never.

(** ** A test double

    Concrete collaborators, in the manner of the stubs a unit test of the
    orchestrator injects: a project with three compiled contracts, a chain
    with one transparent proxy and one beacon, and a deployer that numbers
    the addresses it creates. *)
Module Double.

Local Open Scope string_scope.

Record Artifact : Type := mkArtifact {
  art_bytecode : string;
  art_layout : list string;
  art_findings : list string
}.

Record Factory : Type := mkFactory {
  fac_bytecode : string;
  fac_abi : list string
}.

#[export] Instance types : ExternalTypes := {|
  HardhatRuntimeEnvironment := string;
  EthereumProvider := string;
  ContractFactory := Factory;
  ValidationDataCurrent := list Artifact;
  StorageLayout := list string;
  ConstructorArg := string;
  TransactionResponse := string;
  Manifest := string;
  Env := nat
|}.

Definition project : list Artifact :=
  [ mkArtifact "60V1" ["owner"; "total"] [];
    mkArtifact "60V2" ["owner"; "total"; "paused"] [];
    mkArtifact "60V2swap" ["total"; "owner"] [];
    mkArtifact "60Bad" ["owner"; "total"] ["selfdestruct"] ].

Fixpoint artifact_of (v : list Artifact) (code : string) : option Artifact :=
  match v with
  | [] => None
  | a :: rest =>
      if String.eqb (art_bytecode a) code then Some a else artifact_of rest code
  end.

Fixpoint is_prefix (old new : list string) : bool :=
  match old, new with
  | [], _ => true
  | x :: old', y :: new' => String.eqb x y && is_prefix old' new'
  | _ :: _, [] => false
  end.

Fixpoint layout_at (addr : string) (m : @ManifestData types)
    : option (list string) :=
  match m with
  | [] => None
  | (_, r) :: rest =>
      if String.eqb (rec_address r) addr then Some (rec_layout r)
      else layout_at addr rest
  end.

Definition digit (n : nat) : string :=
  String (Ascii.ascii_of_nat (48 + n)) EmptyString.

#[export] Instance collaborators : Collaborators := {|
  network_provider := fun hre => hre;
  bytecode := fac_bytecode;
  readValidations := fun hre _ =>
    if String.eqb hre "offline" then Err (ExternalError "no validations cache")
    else Ok project;
  getUnlinkedBytecode := fun _ code => Ok code;
  encodeDeploy := fun _ args =>
    Ok (String.concat "," (match args with Some l => l | None => [] end));
  getVersion := fun unlinked linked args =>
    if String.eqb unlinked "" then Err AmbiguousBytecodeError
    else Ok (mkVersion (unlinked ++ ":" ++ args) unlinked (linked ++ ":" ++ args));
  getStorageLayout := fun v ver =>
    match artifact_of v (withoutMetadata ver) with
    | Some a => Ok (art_layout a)
    | None => Err UnknownVersionError
    end;
  withDefaults := fun opts =>
    mkRequiredOptions
      (match constructorArgs opts with Some l => l | None => [] end)
      (match unsafeAllow opts with Some l => l | None => [] end)
      (match unsafeSkipStorageCheck opts with Some b => b | None => false end)
      (match kind opts with Some k => k | None => transparent end)
      (match getTxResponse opts with Some b => b | None => false end);
  classifyProxyKind := fun _ addr _ =>
    if String.eqb addr "0xProxy" then Ok transparent
    else Err (ExternalError "not a proxy");
  matchesProxyPattern := fun _ addr _ => Ok (String.eqb addr "0xProxy");
  getImplementationAddress := fun _ addr _ =>
    if String.eqb addr "0xProxy" then Ok "0xImpl0"
    else Err (ExternalError "no implementation slot");
  getImplementationAddressFromBeacon := fun _ addr _ =>
    if String.eqb addr "0xBeacon" then Ok "0xImpl0"
    else Err (ExternalError "not a beacon");
  assertUpgradeSafe := fun v ver o =>
    match artifact_of v (withoutMetadata ver) with
    | Some a =>
        match art_findings a with
        | [] => Ok tt
        | findings => Err (UpgradeSafetyError findings)
        end
    | None => Err UnknownVersionError
    end;
  Manifest_forNetwork := fun p _ => Ok p;
  getStorageLayoutForAddress := fun _ _ addr _ m =>
    match layout_at addr m with
    | Some l => Ok l
    | None => Err UnrecordedImplementationError
    end;
  assertStorageUpgradeSafe := fun old new _ =>
    if is_prefix old new then Ok tt else Err (StorageLayoutError old);
  format_minimal := fun f => Ok (fac_abi f);
  deploy := fun f _ n =>
    (Ok (mkDeployResult ("0xImpl" ++ digit (S n)) (Some ("0xTx" ++ digit (S n)))
           (Some ("0xTx" ++ digit (S n)))), S n);
  getTransaction := fun _ h _ => Ok h;
  manifestWriteSucceeds := fun _ _ _ _ => true
|}.

Definition V1 : Factory := mkFactory "60V1" ["function total()"].
Definition V2 : Factory := mkFactory "60V2" ["function total()"; "function pause()"].
Definition V2swap : Factory := mkFactory "60V2swap" ["function total()"].
Definition Bad : Factory := mkFactory "60Bad" ["function kill()"].

Definition noOptions : Options := mkOptions None None None None None.
Definition skipStorageCheck : Options :=
  mkOptions None None (Some true) None None.
Definition requestUups : Options :=
  mkOptions None None None (Some uups) None.
Definition withArgs : Options :=
  mkOptions (Some ["1000"; "0xOwner"]) None None None (Some true).

(** The manifest after V1 was deployed at [0xImpl0] behind the proxy and
    the beacon. *)
Definition recordV1 : DeploymentRecord :=
  mkDeploymentRecord "0xImpl0" (Some "0xTx0") ["owner"; "total"]
    ["function total()"].

Definition live : State :=
  mkState (0 : Env) [(mkVersion "60V1:" "60V1" "60V1:", recordV1)].

Definition blank : State := mkState (0 : Env) [].

(** What [getDeployData] resolves for [V2swap] with no options. *)
Definition dataV2swap : DeployData :=
  mkDeployData "hardhat" project "60V2swap" ""
    (mkVersion "60V2swap:" "60V2swap" "60V2swap:")
    ["total"; "owner"] (withDefaults noOptions).

(** What [getDeployData] resolves for [V2] on another network, with the
    storage check skipped. *)
Definition dataV2mainnet : DeployData :=
  mkDeployData "mainnet" project "60V2" "" (mkVersion "60V2:" "60V2" "60V2:")
    ["owner"; "total"; "paused"] (withDefaults skipStorageCheck).

(** What [getDeployData] resolves for [V2] with the storage check
    skipped. *)
Definition dataV2skip : DeployData :=
  mkDeployData "hardhat" project "60V2" "" (mkVersion "60V2:" "60V2" "60V2:")
    ["owner"; "total"; "paused"] (withDefaults skipStorageCheck).

(** What [getDeployData] resolves for [V2] with no options. *)
Definition dataV2 : DeployData :=
  mkDeployData "hardhat" project "60V2" "" (mkVersion "60V2:" "60V2" "60V2:")
    ["owner"; "total"; "paused"] (withDefaults noOptions).

End Double.

(** ** Observations on traces *)

Section Observations.
Context {T : ExternalTypes}.

(** The steps of the orchestrator (section 4.6 of the spec), with the read
    of the current implementation's address kept apart from the fetch of
    its layout. *)
Inductive Step : Type :=
| ResolveDeployData
| ClassifyTarget
| ReadCurrentImplementation
| FetchCurrentLayout
| AssertUpgradeSafe
| AssertStorageUpgradeSafe
| FetchOrDeploy
| AssembleResult.

Definition step_of (ev : Event) : Step :=
  match ev with
  | EReadValidations _ _ | EGetUnlinkedBytecode _ _ _ | EEncodeDeploy _ _ _
  | EGetVersion _ _ _ _ | EGetStorageLayout _ _ _ | EWithDefaults _ _ =>
      ResolveDeployData
  | EProcessProxyKind _ _ _ _ _ _ | EAssertNotProxy _ _ _ => ClassifyTarget
  | EGetImplementationAddress _ _ _
  | EGetImplementationAddressFromBeacon _ _ _ => ReadCurrentImplementation
  | EManifestForNetwork _ _ | EGetStorageLayoutForAddress _ _ _ _ =>
      FetchCurrentLayout
  | EAssertUpgradeSafe _ _ _ _ => AssertUpgradeSafe
  | EAssertStorageUpgradeSafe _ _ _ _ => AssertStorageUpgradeSafe
  | EFetchOrDeployGetDeployment _ _ _ | EManifestGet _ _ | EFormatMinimal _ _
  | EDeploy _ _ _ | EManifestInsert _ _ _ => FetchOrDeploy
  | EGetTransaction _ _ _ => AssembleResult
  end.

Definition steps (t : list Event) : list Step := map step_of t.

(** The order the spec gives: the current implementation is read and its
    layout fetched before [assertUpgradeSafe]. *)
Definition spec_position (s : Step) : nat :=
  match s with
  | ResolveDeployData => 0
  | ClassifyTarget => 1
  | ReadCurrentImplementation => 2
  | FetchCurrentLayout => 2
  | AssertUpgradeSafe => 3
  | AssertStorageUpgradeSafe => 4
  | FetchOrDeploy => 5
  | AssembleResult => 6
  end.

(** The order of the source: [assertUpgradeSafe] runs between the read of
    the current implementation's address and the fetch of its layout. *)
Definition source_position (s : Step) : nat :=
  match s with
  | ResolveDeployData => 0
  | ClassifyTarget => 1
  | ReadCurrentImplementation => 2
  | AssertUpgradeSafe => 3
  | FetchCurrentLayout => 4
  | AssertStorageUpgradeSafe => 5
  | FetchOrDeploy => 6
  | AssembleResult => 7
  end.

Fixpoint nondecreasing (l : list nat) : bool :=
  match l with
  | [] => true
  | x :: rest =>
      match rest with
      | [] => true
      | y :: _ => (x <=? y) && nondecreasing rest
      end
  end.

(** A trace follows an order when the positions of its events never go
    back. *)
Definition follows (position : Step -> nat) (t : list Event) : bool :=
  nondecreasing (map position (steps t)).

Definition Step_eqb (a b : Step) : bool :=
  source_position a =? source_position b.

Definition occurs (s : Step) (t : list Event) : bool :=
  existsb (Step_eqb s) (steps t).

(** Events by which the old layout is computed. *)
Definition opensManifest (ev : Event) : bool :=
  match ev with EManifestForNetwork _ _ => true | _ => false end.

Definition callsGetStorageLayoutForAddress (ev : Event) : bool :=
  match ev with EGetStorageLayoutForAddress _ _ _ _ => true | _ => false end.

Definition callsAssertStorageUpgradeSafe (ev : Event) : bool :=
  match ev with EAssertStorageUpgradeSafe _ _ _ _ => true | _ => false end.

Definition callsAssertUpgradeSafe (ev : Event) : bool :=
  match ev with EAssertUpgradeSafe _ _ _ _ => true | _ => false end.

Definition callsFetchOrDeploy (ev : Event) : bool :=
  match ev with EFetchOrDeployGetDeployment _ _ _ => true | _ => false end.

(** A deployment transaction is sent. *)
Definition callsDeploy (ev : Event) : bool :=
  match ev with EDeploy _ _ _ => true | _ => false end.

(** The exception a safety gate raised, when the event is a gate that
    raised. *)
Definition gateRaised (ev : Event) : option UpgradesError :=
  match ev with
  | EAssertUpgradeSafe _ _ _ (Err e) => Some e
  | EAssertStorageUpgradeSafe _ _ _ (Err e) => Some e
  | _ => None
  end.

Definition upgradeSafePassed (ev : Event) : bool :=
  match ev with
  | EAssertUpgradeSafe _ _ _ (Ok _) => true
  | _ => false
  end.

Definition readsCurrentImplementation (ev : Event) : bool :=
  match ev with
  | EGetImplementationAddress _ _ _
  | EGetImplementationAddressFromBeacon _ _ _ => true
  | _ => false
  end.

Definition assertNotProxyPassed (ev : Event) : bool :=
  match ev with EAssertNotProxy _ _ (Ok _) => true | _ => false end.

Definition processProxyKindPassed (ev : Event) : bool :=
  match ev with EProcessProxyKind _ _ _ _ _ (Ok _) => true | _ => false end.

(** A safety gate, the deployment cache or the deployment itself. *)
Definition runsGateOrDeployment (ev : Event) : bool :=
  callsAssertUpgradeSafe ev || callsAssertStorageUpgradeSafe ev
  || callsFetchOrDeploy ev || callsDeploy ev.

(** The current implementation is resolved, or the deployment is under
    way. *)
Definition resolvesOrDeploys (ev : Event) : bool :=
  readsCurrentImplementation ev || callsFetchOrDeploy ev || callsDeploy ev.

Definition never (p : Event -> bool) (t : list Event) : bool :=
  negb (existsb p t).

(** No [later] event occurs before the first [guard] event. *)
Fixpoint guardedBy (guard later : Event -> bool) (t : list Event) : bool :=
  match t with
  | [] => true
  | ev :: rest =>
      if guard ev then true else negb (later ev) && guardedBy guard later rest
  end.

Definition count (p : Event -> bool) (t : list Event) : nat :=
  length (filter p t).

End Observations.

(** ** Calling the orchestrator again *)

Section RepeatedCall.
Context {T : ExternalTypes} {C : Collaborators}.

(** The collaborators consulted before the cache answer in [s1] as they
    did in [s]: the validations read for [hre], what is found at the
    target address, and the layout recorded for the implementation the
    target points to. *)
Definition sameAnswers (hre : HardhatRuntimeEnvironment)
    (target : option string) (s s1 : State) : Prop :=
  let p := network_provider hre in
  readValidations hre (env s1) = readValidations hre (env s)
  /\ forall a,
       target = Some a ->
       classifyProxyKind p a (env s1) = classifyProxyKind p a (env s)
       /\ matchesProxyPattern p a (env s1) = matchesProxyPattern p a (env s)
       /\ getImplementationAddress p a (env s1)
          = getImplementationAddress p a (env s)
       /\ getImplementationAddressFromBeacon p a (env s1)
          = getImplementationAddressFromBeacon p a (env s)
       /\ Manifest_forNetwork p (env s1) = Manifest_forNetwork p (env s)
       /\ forall m v current,
            getImplementationAddress p a (env s) = Ok current
            \/ getImplementationAddressFromBeacon p a (env s) = Ok current ->
            getStorageLayoutForAddress m v current (env s1) (manifest s1)
            = getStorageLayoutForAddress m v current (env s) (manifest s).

(** [entry] is run in [s] and then again in the state the first run left.
    Both runs return; both look the same version up; the second finds the
    record the manifest held after the first and returns its address, which
    is the address the first returned; the second sends no deployment
    transaction and leaves the state as it found it; over both runs one
    deployment transaction is sent when the version was absent from the
    manifest, and none when it was already recorded. *)
Definition secondCallHitsCache (s : State) (entry : M DeployedImpl) : Prop :=
  let first := entry s in
  let second := entry (final first) in
  exists ver rec d1 d2,
    result first = Ok d1
    /\ result second = Ok d2
    /\ manifest_get ver (manifest (final first)) = Some rec
    /\ In (EManifestGet ver (manifest_get ver (manifest s))) (trace first)
    /\ In (EManifestGet ver (Some rec)) (trace second)
    /\ impl d1 = rec_address rec
    /\ impl d2 = rec_address rec
    /\ count callsDeploy (trace second) = 0
    /\ count callsDeploy (trace first ++ trace second)
       = match manifest_get ver (manifest s) with Some _ => 0 | None => 1 end
    /\ final second = final first.

End RepeatedCall.

(** ** Further observations on traces *)

Section MoreObservations.
Context {T : ExternalTypes}.

(** The exception a collaborator call raised into the orchestrator.  The
    promise of [getTransaction] is not awaited, so what it rejects with
    is not raised; [withDefaults] and the cache's lookup do not raise; a
    manifest write that fails does. *)
Definition raisedBy (ev : Event) : option UpgradesError :=
  match ev with
  | EReadValidations _ (Err e) | EGetUnlinkedBytecode _ _ (Err e)
  | EEncodeDeploy _ _ (Err e) | EGetVersion _ _ _ (Err e)
  | EGetStorageLayout _ _ (Err e) | EProcessProxyKind _ _ _ _ _ (Err e)
  | EGetImplementationAddress _ _ (Err e) | EAssertNotProxy _ _ (Err e)
  | EGetImplementationAddressFromBeacon _ _ (Err e)
  | EAssertUpgradeSafe _ _ _ (Err e) | EManifestForNetwork _ (Err e)
  | EGetStorageLayoutForAddress _ _ _ (Err e)
  | EAssertStorageUpgradeSafe _ _ _ (Err e) | EFormatMinimal _ (Err e)
  | EDeploy _ _ (Err e) | EManifestInsert _ _ (Err e) => Some e
  | _ => None
  end.

Definition quiet (ev : Event) : bool :=
  match raisedBy ev with Some _ => false | None => true end.

Fixpoint lastEvent (t : list Event) : option Event :=
  match t with
  | [] => None
  | ev :: rest =>
      match rest with
      | [] => Some ev
      | _ :: _ => lastEvent rest
      end
  end.

Definition callsGetTransaction (ev : Event) : bool :=
  match ev with EGetTransaction _ _ _ => true | _ => false end.

Definition callsProcessProxyKind (ev : Event) : bool :=
  match ev with EProcessProxyKind _ _ _ _ _ _ => true | _ => false end.

Definition callsAssertNotProxy (ev : Event) : bool :=
  match ev with EAssertNotProxy _ _ _ => true | _ => false end.

Definition callsGetImplementationAddress (ev : Event) : bool :=
  match ev with EGetImplementationAddress _ _ _ => true | _ => false end.

Definition callsGetImplementationAddressFromBeacon (ev : Event) : bool :=
  match ev with
  | EGetImplementationAddressFromBeacon _ _ _ => true
  | _ => false
  end.

Definition callsReadValidations (ev : Event) : bool :=
  match ev with EReadValidations _ _ => true | _ => false end.

(** The provider a call was given. *)
Definition providerOf (ev : Event) : option EthereumProvider :=
  match ev with
  | EProcessProxyKind p _ _ _ _ _ | EGetImplementationAddress p _ _
  | EAssertNotProxy p _ _ | EGetImplementationAddressFromBeacon p _ _
  | EManifestForNetwork p _ | EFetchOrDeployGetDeployment _ p _ => Some p
  | _ => None
  end.

(** The steps a trace goes through, each named once. *)
Fixpoint stepsTaken (l : list Step) : list Step :=
  match l with
  | [] => []
  | a :: rest =>
      match rest with
      | [] => [a]
      | b :: _ => if Step_eqb a b then stepsTaken rest else a :: stepsTaken rest
      end
  end.

(** [l] begins with [prefix]. *)
Fixpoint startsWith (prefix l : list Step) : bool :=
  match prefix, l with
  | [], _ => true
  | a :: prefix', b :: l' => Step_eqb a b && startsWith prefix' l'
  | _ :: _, [] => false
  end.

(** The steps of an upgrade up to the cache, in the order of the source. *)
Definition upgradeSteps (opts : Options) : list Step :=
  [ResolveDeployData; ClassifyTarget; ReadCurrentImplementation;
   AssertUpgradeSafe; FetchCurrentLayout]
  ++ (if storageCheckNotSkipped opts then [AssertStorageUpgradeSafe] else [])
  ++ [FetchOrDeploy].

End MoreObservations.

(** ** Where the arguments of a call come from *)

Section DataFlow.
Context {T : ExternalTypes} {C : Collaborators}.

(** The arguments of a call come from the caller's arguments and from
    the answers given earlier in the trace [t]. *)
Definition fedFrom (hre : HardhatRuntimeEnvironment)
    (ImplFactory : ContractFactory) (opts : Options)
    (target : option string) (t : list Event) (ev : Event) : Prop :=
  let validationsRead v := In (EReadValidations hre (Ok v)) t in
  let versionDerived ver :=
    exists unlinked args,
      In (EGetVersion unlinked (bytecode ImplFactory) args (Ok ver)) t in
  let currentRead a :=
    exists p tgt,
      In (EGetImplementationAddress p tgt (Ok a)) t
      \/ In (EGetImplementationAddressFromBeacon p tgt (Ok a)) t in
  match ev with
  | EReadValidations h _ => h = hre
  | EGetUnlinkedBytecode v code _ =>
      validationsRead v /\ code = bytecode ImplFactory
  | EEncodeDeploy f args _ => f = ImplFactory /\ args = constructorArgs opts
  | EGetVersion unlinked linked args _ =>
      linked = bytecode ImplFactory
      /\ (exists v,
            In (EGetUnlinkedBytecode v (bytecode ImplFactory) (Ok unlinked)) t)
      /\ In (EEncodeDeploy ImplFactory (constructorArgs opts) (Ok args)) t
  | EGetStorageLayout v ver _ => validationsRead v /\ versionDerived ver
  | EWithDefaults o r => o = opts /\ r = withDefaults opts
  | EProcessProxyKind _ tgt o v ver _ =>
      tgt = target /\ o = opts /\ validationsRead v /\ versionDerived ver
  | EGetImplementationAddress _ a _ => target = Some a
  | EAssertNotProxy _ a _ => target = Some a
  | EGetImplementationAddressFromBeacon _ a _ => target = Some a
  | EAssertUpgradeSafe v ver o _ =>
      validationsRead v /\ versionDerived ver /\ o = withDefaults opts
  | EManifestForNetwork _ _ => True
  | EGetStorageLayoutForAddress m v a _ =>
      (exists p, In (EManifestForNetwork p (Ok m)) t)
      /\ validationsRead v /\ currentRead a
  | EAssertStorageUpgradeSafe _ newLayout o _ =>
      (exists v ver, In (EGetStorageLayout v ver (Ok newLayout)) t)
      /\ o = withDefaults opts
  | EFetchOrDeployGetDeployment ver _ o =>
      versionDerived ver
      /\ constructorArgs o = constructorArgs opts
      /\ unsafeAllow o = unsafeAllow opts
      /\ unsafeSkipStorageCheck o = unsafeSkipStorageCheck opts
      /\ getTxResponse o = getTxResponse opts
  | EManifestGet ver _ => versionDerived ver
  | EFormatMinimal f _ => f = ImplFactory
  | EDeploy f args _ =>
      f = ImplFactory /\ args = req_constructorArgs (withDefaults opts)
  | EManifestInsert ver _ _ => versionDerived ver
  | EGetTransaction h _ _ => h = hre
  end.

End DataFlow.


(** ** More fixtures on the test double *)
Module Fixtures.
Import Double.
Local Open Scope string_scope.

(** The collaborators of [Double], on a node that no longer answers
    [getTransaction]. *)
Definition unreachable : Collaborators := {|
  network_provider := @network_provider types collaborators;
  bytecode := @bytecode types collaborators;
  readValidations := @readValidations types collaborators;
  getUnlinkedBytecode := @getUnlinkedBytecode types collaborators;
  encodeDeploy := @encodeDeploy types collaborators;
  getVersion := @getVersion types collaborators;
  getStorageLayout := @getStorageLayout types collaborators;
  withDefaults := @withDefaults types collaborators;
  classifyProxyKind := @classifyProxyKind types collaborators;
  matchesProxyPattern := @matchesProxyPattern types collaborators;
  getImplementationAddress := @getImplementationAddress types collaborators;
  getImplementationAddressFromBeacon :=
    @getImplementationAddressFromBeacon types collaborators;
  assertUpgradeSafe := @assertUpgradeSafe types collaborators;
  Manifest_forNetwork := @Manifest_forNetwork types collaborators;
  getStorageLayoutForAddress :=
    @getStorageLayoutForAddress types collaborators;
  assertStorageUpgradeSafe := @assertStorageUpgradeSafe types collaborators;
  format_minimal := @format_minimal types collaborators;
  deploy := @deploy types collaborators;
  getTransaction := fun _ _ _ => Err (ExternalError "node unreachable");
  manifestWriteSucceeds := @manifestWriteSucceeds types collaborators
|}.

Definition askTransaction : Options :=
  mkOptions None None None None (Some true).

(** What [getDeployData] resolves for [V2] when the transaction is asked
    for. *)
Definition dataV2tx : DeployData :=
  mkDeployData "hardhat" project "60V2" "" (mkVersion "60V2:" "60V2" "60V2:")
    ["owner"; "total"; "paused"] (withDefaults askTransaction).

Definition recordV2 : DeploymentRecord :=
  mkDeploymentRecord "0xImpl1" (Some "0xTx1") ["owner"; "total"; "paused"]
    ["function total()"; "function pause()"].

(** The state after [V2] was deployed for the live proxy. *)
Definition upgraded : State :=
  mkState (1 : Env)
    [(mkVersion "60V1:" "60V1" "60V1:", recordV1);
     (mkVersion "60V2:" "60V2" "60V2:", recordV2)].


(** The collaborators of [Double] on a store that takes no write. *)
Definition fullDisk : Collaborators := {|
  network_provider := @network_provider types collaborators;
  bytecode := @bytecode types collaborators;
  readValidations := @readValidations types collaborators;
  getUnlinkedBytecode := @getUnlinkedBytecode types collaborators;
  encodeDeploy := @encodeDeploy types collaborators;
  getVersion := @getVersion types collaborators;
  getStorageLayout := @getStorageLayout types collaborators;
  withDefaults := @withDefaults types collaborators;
  classifyProxyKind := @classifyProxyKind types collaborators;
  matchesProxyPattern := @matchesProxyPattern types collaborators;
  getImplementationAddress := @getImplementationAddress types collaborators;
  getImplementationAddressFromBeacon :=
    @getImplementationAddressFromBeacon types collaborators;
  assertUpgradeSafe := @assertUpgradeSafe types collaborators;
  Manifest_forNetwork := @Manifest_forNetwork types collaborators;
  getStorageLayoutForAddress :=
    @getStorageLayoutForAddress types collaborators;
  assertStorageUpgradeSafe := @assertStorageUpgradeSafe types collaborators;
  format_minimal := @format_minimal types collaborators;
  deploy := @deploy types collaborators;
  getTransaction := @getTransaction types collaborators;
  manifestWriteSucceeds := fun _ _ _ _ => false
|}.





End Fixtures.

(** ** Proof automation: run the orchestrator one collaborator at a time *)

Ltac unfold_orchestrator :=
  unfold deployProxyImpl, deployBeaconImpl, deployImpl, getDeployData,
    fetchOrDeployGetDeployment, deployCallback, processProxyKind,
    assertNotProxy, readManifest, writeManifest, emit, bind, ret, throw,
    sync, await, awaitManifest, awaitTx, trace, result, final in *.

Ltac case_innermost :=
  match goal with
  | |- context [match ?x with _ => _ end] =>
      lazymatch x with
      | context [match _ with _ => _ end] => fail
      | _ => destruct x eqn:?
      end
  end.

Ltac run_all := simpl; repeat (case_innermost; simpl).

(** [processProxyKind] only assigns [opts.kind]. *)
Lemma storageCheckNotSkipped_set_kind {T : ExternalTypes}
    (opts : Options) (k : option ProxyKind) :
  storageCheckNotSkipped (set_kind opts k) = storageCheckNotSkipped opts.
Proof. reflexivity. Qed.

Lemma Version_eqb_refl (v : Version) : Version_eqb v v = true.
Proof. unfold Version_eqb. rewrite !String.eqb_refl. reflexivity. Qed.

Lemma Version_eqb_eq (a b : Version) : Version_eqb a b = true -> a = b.
Proof.
  destruct a, b. unfold Version_eqb. simpl. intros H.
  apply andb_prop in H. destruct H as [H H3].
  apply andb_prop in H. destruct H as [H1 H2].
  apply String.eqb_eq in H1, H2, H3. congruence.
Qed.

Lemma manifest_get_app_hit {T : ExternalTypes} (ver : Version)
    (m m' : ManifestData) (r : DeploymentRecord) :
  manifest_get ver m = Some r -> manifest_get ver (m ++ m') = Some r.
Proof.
  induction m as [| [v r'] m IH]; simpl; [discriminate |].
  destruct (Version_eqb v ver); auto.
Qed.

Lemma manifest_get_app_miss {T : ExternalTypes} (ver : Version)
    (m m' : ManifestData) :
  manifest_get ver m = None -> manifest_get ver (m ++ m') = manifest_get ver m'.
Proof.
  induction m as [| [v r'] m IH]; simpl; [reflexivity |].
  destruct (Version_eqb v ver); [discriminate | auto].
Qed.

(** A record inserted for a version that was absent is the one found
    afterwards. *)
Lemma manifest_get_insert_absent {T : ExternalTypes} (ver : Version)
    (m : ManifestData) (r : DeploymentRecord) :
  manifest_get ver m = None ->
  manifest_get ver (manifest_insertIfAbsent ver r m) = Some r.
Proof.
  intros H. unfold manifest_insertIfAbsent. rewrite H.
  rewrite manifest_get_app_miss by exact H.
  simpl. rewrite Version_eqb_refl. reflexivity.
Qed.

Lemma getTxResponse_set_kind {T : ExternalTypes}
    (opts : Options) (k : option ProxyKind) :
  getTxResponse (set_kind opts k) = getTxResponse opts.
Proof. reflexivity. Qed.

(** A bound computation that returns went through both of its halves. *)
Lemma bind_ok {T : ExternalTypes} {A B} (m : M A) (f : A -> M B) (s s2 : State) (b : B)
    (t : list Event) :
  bind m f s = (Ok b, s2, t) ->
  exists a s1 t1 t2,
    m s = (Ok a, s1, t1) /\ f a s1 = (Ok b, s2, t2) /\ t = t1 ++ t2.
Proof.
  unfold bind. destruct (m s) as [[[a | e] s1] t1]; [| discriminate].
  destruct (f a s1) as [[r s2'] t2] eqn:Hf. intros H. inversion H; subst.
  exists a, s1, t1, t2. auto.
Qed.

Lemma bind_run {T : ExternalTypes} {A B} (m : M A) (f : A -> M B) (s s1 s2 : State) (a : A)
    (r : Result B) (t1 t2 : list Event) :
  m s = (Ok a, s1, t1) -> f a s1 = (r, s2, t2) ->
  bind m f s = (r, s2, t1 ++ t2).
Proof. intros Hm Hf. unfold bind. rewrite Hm, Hf. reflexivity. Qed.

Lemma count_app {T : ExternalTypes} (p : Event -> bool) (a b : list Event) :
  count p (a ++ b) = count p a + count p b.
Proof. unfold count. rewrite filter_app, length_app. reflexivity. Qed.

Lemma count_cons {T : ExternalTypes} (p : Event -> bool) (ev : Event) (t : list Event) :
  count p (ev :: t) = (if p ev then 1 else 0) + count p t.
Proof. unfold count. simpl. destruct (p ev); reflexivity. Qed.

Ltac unfold_in H :=
  unfold deployProxyImpl, deployBeaconImpl, deployImpl, getDeployData,
    fetchOrDeployGetDeployment, deployCallback, processProxyKind,
    assertNotProxy, readManifest, writeManifest, emit, bind, ret, throw,
    sync, await, awaitManifest, awaitTx in H.

(** Replay a run whose collaborators' answers are known from the context. *)
Ltac replay_step :=
  match goal with
  | H : ?l = _ |- context [match ?l with _ => _ end] => progress (rewrite H)
  | H : forall m, _ = _ |- _ => progress (rewrite H)
  | H : manifest_get ?v ?m = None
    |- context [manifest_get ?v (manifest_insertIfAbsent ?v ?r ?m)] =>
      rewrite (manifest_get_insert_absent v m r H)
  end.

Ltac replay := repeat (simpl; replay_step); simpl.

Ltac finish_repeat :=
  repeat split; simpl; try reflexivity; try assumption;
  try (rewrite !in_app_iff; simpl; auto 10);
  try (match goal with
       | |- context [match ?x with _ => _ end] => destruct x; reflexivity
       end).

(** Neither entry point fails unless a call raised, or returns when one
    did. *)
Lemma returns_unless_raised {T : ExternalTypes} {C : Collaborators}
    (hre : HardhatRuntimeEnvironment) (ImplFactory : ContractFactory)
    (opts : Options) (target : option string) (s : State) :
  isOk (result (deployProxyImpl hre ImplFactory opts target s))
  = forallb quiet (trace (deployProxyImpl hre ImplFactory opts target s))
  /\ isOk (result (deployBeaconImpl hre ImplFactory opts target s))
     = forallb quiet (trace (deployBeaconImpl hre ImplFactory opts target s)).
Proof.
  unfold_orchestrator. split; destruct target; run_all; reflexivity.
Qed.

(** ** The storage check and the old layout *)

Section StorageCheck.
Context {T : ExternalTypes} {C : Collaborators}.

(** C1, as the source has it: with [unsafeSkipStorageCheck: true] an
    upgrade never invokes [assertStorageUpgradeSafe], but the old layout is
    still computed: once [assertUpgradeSafe] has passed the manifest is
    opened, and when it opens [getStorageLayoutForAddress] is invoked for
    the current implementation's address. *)
Theorem deployImpl_skip_keeps_layout_fetch
    (hre : HardhatRuntimeEnvironment) (deployData : DeployData)
    (ImplFactory : ContractFactory) (opts : Options)
    (currentImplAddress : string) (s : State) :
  unsafeSkipStorageCheck opts = Some true ->
  let t := trace (deployImpl hre deployData ImplFactory opts
                    (Some currentImplAddress) s) in
  never callsAssertStorageUpgradeSafe t = true
  /\ (isOk (assertUpgradeSafe (validations deployData) (version deployData)
              (fullOpts deployData)) = true ->
      In (EManifestForNetwork (provider deployData)
            (Manifest_forNetwork (provider deployData) (env s))) t
      /\ forall m,
           Manifest_forNetwork (provider deployData) (env s) = Ok m ->
           In (EGetStorageLayoutForAddress m (validations deployData)
                 currentImplAddress
                 (getStorageLayoutForAddress m (validations deployData)
                    currentImplAddress (env s) (manifest s))) t).
Proof.
  intros Hskip t. subst t.
  unfold_orchestrator. unfold storageCheckNotSkipped. rewrite Hskip.
  split.
  - unfold never. run_all; reflexivity.
  - intros Hsafe.
    destruct (assertUpgradeSafe _ _ _) eqn:Ha; [| discriminate].
    split.
    + run_all; auto.
    + intros m Hm. rewrite Hm. run_all; auto.
Qed.

End StorageCheck.

Section StorageCheckRuns.
Import Double.
Local Open Scope string_scope.

Lemma deployImpl_skip_keeps_layout_fetch_witness :
  let t := trace (deployImpl "hardhat" dataV2skip V2 skipStorageCheck
                    (Some "0xImpl0") live) in
  never callsAssertStorageUpgradeSafe t = true
  /\ In (EManifestForNetwork "hardhat" (Ok "hardhat")) t
  /\ In (EGetStorageLayoutForAddress "hardhat" project "0xImpl0"
           (Ok ["owner"; "total"])) t.
Proof.
  intros t.
  destruct (deployImpl_skip_keeps_layout_fetch (C := collaborators)
              "hardhat" dataV2skip V2 skipStorageCheck "0xImpl0" live
              eq_refl) as (Hnever & Hfetch).
  destruct (Hfetch eq_refl) as (Hopen & Hlayout).
  split; [exact Hnever |]. split; [exact Hopen |].
  exact (Hlayout "hardhat" eq_refl).
Defined.

(** C1 as the spec states it fails: [getDeployData] resolves [dataV2skip]
    for [V2] with [unsafeSkipStorageCheck: true], and upgrading the
    implementation at [0xImpl0] with it opens the manifest and invokes
    [getStorageLayoutForAddress]. *)
Lemma skip_still_computes_old_layout :
  let run := deployImpl "hardhat" dataV2skip V2 skipStorageCheck
               (Some "0xImpl0") live in
  unsafeSkipStorageCheck skipStorageCheck = Some true
  /\ result (getDeployData "hardhat" V2 skipStorageCheck live) = Ok dataV2skip
  /\ isOk (result run) = true
  /\ ~ (never callsGetStorageLayoutForAddress (trace run) = true
        /\ never opensManifest (trace run) = true).
Proof.
  intros run. split; [reflexivity |]. split; [reflexivity |].
  split; [reflexivity |].
  intros [H _]. vm_compute in H. discriminate H.
Qed.

End StorageCheckRuns.

(** ** Order of the steps *)

Section StepOrder.
Context {T : ExternalTypes} {C : Collaborators}.

(** C2, as the source has it: every upgrade through either entry point
    goes through the steps in the order resolve deploy data, classify the
    target, read the current implementation's address, [assertUpgradeSafe],
    fetch the current implementation's layout, [assertStorageUpgradeSafe]
    unless it is skipped, [fetchOrDeploy], assemble the result.  The steps
    a run takes are an initial part of that list; the run stops short of
    the end only when a call raised, and a run that returns has taken
    every step up to [fetchOrDeploy], the skipped storage check apart. *)
Theorem upgrade_steps_in_source_order
    (hre : HardhatRuntimeEnvironment) (ImplFactory : ContractFactory)
    (opts : Options) (target : string) (s : State) :
  let inOrder (run : Result DeployedImpl * State * list Event) :=
    follows source_position (trace run) = true
    /\ startsWith (stepsTaken (steps (trace run)))
         (upgradeSteps opts ++ [AssembleResult]) = true
    /\ isOk (result run) = forallb quiet (trace run)
    /\ (isOk (result run) = true ->
        startsWith (upgradeSteps opts) (stepsTaken (steps (trace run)))
        = true) in
  inOrder (deployProxyImpl hre ImplFactory opts (Some target) s)
  /\ inOrder (deployBeaconImpl hre ImplFactory opts (Some target) s).
Proof.
  intros inOrder. subst inOrder.
  destruct (returns_unless_raised hre ImplFactory opts (Some target) s)
    as [Hproxy Hbeacon].
  split; (split; [| split; [| split; [assumption |]]]).
  all: clear Hproxy Hbeacon; unfold_orchestrator;
       unfold follows, upgradeSteps, storageCheckNotSkipped.
  all: try (intros Hok; revert Hok).
  all: run_all; try reflexivity; intros Hok; try discriminate Hok; reflexivity.
Qed.

End StepOrder.

Section StepOrderRuns.
Import Double.
Local Open Scope string_scope.

Lemma upgrade_steps_in_source_order_witness :
  startsWith (upgradeSteps noOptions)
    (stepsTaken
       (steps (trace (deployProxyImpl "hardhat" V2 noOptions
                        (Some "0xProxy") live)))) = true
  /\ startsWith (upgradeSteps skipStorageCheck)
       (stepsTaken
          (steps (trace (deployBeaconImpl "hardhat" V2 skipStorageCheck
                           (Some "0xBeacon") live)))) = true
  /\ stepsTaken
       (steps (trace (deployBeaconImpl "hardhat" V2 skipStorageCheck
                        (Some "0xBeacon") live)))
     = [ResolveDeployData; ClassifyTarget; ReadCurrentImplementation;
        AssertUpgradeSafe; FetchCurrentLayout; FetchOrDeploy].
Proof.
  destruct (upgrade_steps_in_source_order (C := collaborators)
              "hardhat" V2 noOptions "0xProxy" live)
    as ((_ & _ & _ & Hproxy) & _).
  destruct (upgrade_steps_in_source_order (C := collaborators)
              "hardhat" V2 skipStorageCheck "0xBeacon" live)
    as (_ & (_ & _ & _ & Hbeacon)).
  split; [apply Hproxy; reflexivity |].
  split; [apply Hbeacon; reflexivity | reflexivity].
Defined.

(** C2 as the spec states it fails: the upgrade of the live proxy to [V2]
    succeeds, and its trace does not follow the spec's order, because
    [assertUpgradeSafe] is called before the manifest is opened and the
    current layout fetched. *)
Lemma spec_order_not_followed :
  isOk (result (deployProxyImpl "hardhat" V2 noOptions (Some "0xProxy") live))
    = true
  /\ follows spec_position
       (trace (deployProxyImpl "hardhat" V2 noOptions (Some "0xProxy") live))
     = false
  /\ steps (trace (deployProxyImpl "hardhat" V2 noOptions (Some "0xProxy") live))
     = [ResolveDeployData; ResolveDeployData; ResolveDeployData;
        ResolveDeployData; ResolveDeployData; ResolveDeployData;
        ClassifyTarget; ReadCurrentImplementation; AssertUpgradeSafe;
        FetchCurrentLayout; FetchCurrentLayout; AssertStorageUpgradeSafe;
        FetchOrDeploy; FetchOrDeploy; FetchOrDeploy; FetchOrDeploy;
        FetchOrDeploy].
Proof. repeat split; vm_compute; reflexivity. Qed.

End StepOrderRuns.

(** ** The safety gates *)

Section SafetyGates.
Context {T : ExternalTypes} {C : Collaborators}.

(** C3: when [assertUpgradeSafe] or [assertStorageUpgradeSafe] raises,
    [deployImpl] fails with that exception, [fetchOrDeployGetDeployment] is
    never called, no deployment transaction is sent and the external state
    is left as it was; and whenever [fetchOrDeployGetDeployment] is called,
    [assertUpgradeSafe] has passed and, on an upgrade whose storage check
    is not skipped, so has [assertStorageUpgradeSafe]. *)
Theorem gates_abort_before_deployment
    (hre : HardhatRuntimeEnvironment) (deployData : DeployData)
    (ImplFactory : ContractFactory) (opts : Options)
    (currentImplAddress : option string) (s : State) :
  let run := deployImpl hre deployData ImplFactory opts currentImplAddress s in
  (forall ev e,
      In ev (trace run) -> gateRaised ev = Some e ->
      result run = Err e
      /\ never callsFetchOrDeploy (trace run) = true
      /\ never callsDeploy (trace run) = true
      /\ final run = s)
  /\ (existsb callsFetchOrDeploy (trace run) = true ->
      In (EAssertUpgradeSafe (validations deployData) (version deployData)
            (fullOpts deployData) (Ok tt)) (trace run)
      /\ (currentImplAddress <> None -> storageCheckNotSkipped opts = true ->
          exists oldLayout,
            In (EAssertStorageUpgradeSafe oldLayout (layout deployData)
                  (fullOpts deployData) (Ok tt)) (trace run))).
Proof.
  intros run. subst run. split.
  - intros ev e. unfold_orchestrator. unfold never.
    destruct currentImplAddress; run_all; intros Hin Hgate;
      repeat match goal with
        | H : _ \/ _ |- _ => destruct H
        | H : False |- _ => destruct H
        end;
      subst; simpl in Hgate; try discriminate Hgate;
      inversion Hgate; subst; destruct s; auto.
  - unfold_orchestrator.
    destruct currentImplAddress; run_all; intros Hcalled;
      try discriminate Hcalled;
      (split;
       [ repeat match goal with u : unit |- _ => destruct u end; auto 10
       | intros Hup Hcheck; try congruence;
         repeat match goal with u : unit |- _ => destruct u end;
         eexists; simpl; eauto 10 ]).
Qed.

End SafetyGates.

Section SafetyGateRuns.
Import Double.
Local Open Scope string_scope.

Lemma gates_abort_before_deployment_witness :
  let run := deployImpl "hardhat" dataV2swap V2swap noOptions
               (Some "0xImpl0") live in
  result run = Err (StorageLayoutError ["owner"; "total"])
  /\ never callsFetchOrDeploy (trace run) = true
  /\ never callsDeploy (trace run) = true
  /\ final run = live.
Proof.
  intros run.
  apply (proj1 (gates_abort_before_deployment (C := collaborators)
                  "hardhat" dataV2swap V2swap noOptions (Some "0xImpl0") live)
           (@EAssertStorageUpgradeSafe types ["owner"; "total"]
              ["total"; "owner"]
              (withDefaults noOptions)
              (Err (StorageLayoutError ["owner"; "total"])))).
  - vm_compute. do 3 right. left. reflexivity.
  - reflexivity.
Defined.

End SafetyGateRuns.

(** ** The layout the storage check compares against *)

Section CurrentLayout.
Context {T : ExternalTypes} {C : Collaborators}.

(** C5: on an upgrade, every [oldLayout] handed to
    [assertStorageUpgradeSafe] is the answer of [getStorageLayoutForAddress]
    in this very run for the address that [getImplementationAddress] (for a
    proxy) or [getImplementationAddressFromBeacon] (for a beacon) read from
    the provider in the state the run started in; and that answer is handed
    over: unless the storage check is skipped, a layout that
    [getStorageLayoutForAddress] returned is the [oldLayout] of a call of
    [assertStorageUpgradeSafe], the run stops only when a call raised, and
    a run that returns has fetched the layout once and checked it once. *)
Theorem storage_check_against_current_implementation
    (hre : HardhatRuntimeEnvironment) (ImplFactory : ContractFactory)
    (opts : Options) (target : string) (s : State) :
  let p := network_provider hre in
  let proxyRun := deployProxyImpl hre ImplFactory opts (Some target) s in
  let beaconRun := deployBeaconImpl hre ImplFactory opts (Some target) s in
  let handsOver (run : Result DeployedImpl * State * list Event) :=
    (forall m v current oldLayout,
        In (EGetStorageLayoutForAddress m v current (Ok oldLayout))
           (trace run) ->
        storageCheckNotSkipped opts = true ->
        exists newLayout o r,
          In (EAssertStorageUpgradeSafe oldLayout newLayout o r) (trace run))
    /\ isOk (result run) = forallb quiet (trace run)
    /\ (isOk (result run) = true ->
        count callsGetStorageLayoutForAddress (trace run) = 1
        /\ count callsAssertStorageUpgradeSafe (trace run)
           = if storageCheckNotSkipped opts then 1 else 0) in
  (forall oldLayout newLayout o r,
      In (EAssertStorageUpgradeSafe oldLayout newLayout o r) (trace proxyRun) ->
      exists current m v,
        getImplementationAddress p target (env s) = Ok current
        /\ readValidations hre (env s) = Ok v
        /\ Manifest_forNetwork p (env s) = Ok m
        /\ getStorageLayoutForAddress m v current (env s) (manifest s)
           = Ok oldLayout
        /\ In (EGetImplementationAddress p target (Ok current))
              (trace proxyRun)
        /\ In (EGetStorageLayoutForAddress m v current (Ok oldLayout))
              (trace proxyRun))
  /\ (forall oldLayout newLayout o r,
      In (EAssertStorageUpgradeSafe oldLayout newLayout o r) (trace beaconRun) ->
      exists current m v,
        getImplementationAddressFromBeacon p target (env s) = Ok current
        /\ readValidations hre (env s) = Ok v
        /\ Manifest_forNetwork p (env s) = Ok m
        /\ getStorageLayoutForAddress m v current (env s) (manifest s)
           = Ok oldLayout
        /\ In (EGetImplementationAddressFromBeacon p target (Ok current))
              (trace beaconRun)
        /\ In (EGetStorageLayoutForAddress m v current (Ok oldLayout))
              (trace beaconRun))
  /\ handsOver proxyRun
  /\ handsOver beaconRun.
Proof.
  intros p proxyRun beaconRun handsOver.
  subst p proxyRun beaconRun handsOver.
  destruct (returns_unless_raised hre ImplFactory opts (Some target) s)
    as [Hproxy Hbeacon].
  split; [| split; [| split]].
  - clear Hproxy Hbeacon.
    intros oldLayout newLayout o r; unfold_orchestrator;
    run_all; intros Hin;
    repeat match goal with
      | H : _ \/ _ |- _ => destruct H
      | H : False |- _ => destruct H
      end;
    try discriminate;
    match goal with H : _ = EAssertStorageUpgradeSafe _ _ _ _ |- _ =>
      inversion H; subst end;
    do 3 eexists; repeat split; simpl; eauto 12.
  - clear Hproxy Hbeacon.
    intros oldLayout newLayout o r; unfold_orchestrator;
    run_all; intros Hin;
    repeat match goal with
      | H : _ \/ _ |- _ => destruct H
      | H : False |- _ => destruct H
      end;
    try discriminate;
    match goal with H : _ = EAssertStorageUpgradeSafe _ _ _ _ |- _ =>
      inversion H; subst end;
    do 3 eexists; repeat split; simpl; eauto 12.
  - split; [| split; [exact Hproxy |]]; clear Hproxy Hbeacon.
    + intros m v current oldLayout. unfold_orchestrator.
      unfold storageCheckNotSkipped.
      run_all; intros Hin Hcheck;
      repeat match goal with
        | H : _ \/ _ |- _ => destruct H
        | H : False |- _ => destruct H
        end;
      try discriminate; try congruence;
      match goal with H : _ = EGetStorageLayoutForAddress _ _ _ _ |- _ =>
        inversion H; subst; clear H end;
      do 3 eexists; simpl; eauto 20.
    + unfold_orchestrator. unfold storageCheckNotSkipped.
      intros Hok; revert Hok; run_all; intros Hok;
        try discriminate Hok; split; reflexivity.
  - split; [| split; [exact Hbeacon |]]; clear Hproxy Hbeacon.
    + intros m v current oldLayout. unfold_orchestrator.
      unfold storageCheckNotSkipped.
      run_all; intros Hin Hcheck;
      repeat match goal with
        | H : _ \/ _ |- _ => destruct H
        | H : False |- _ => destruct H
        end;
      try discriminate; try congruence;
      match goal with H : _ = EGetStorageLayoutForAddress _ _ _ _ |- _ =>
        inversion H; subst; clear H end;
      do 3 eexists; simpl; eauto 20.
    + unfold_orchestrator. unfold storageCheckNotSkipped.
      intros Hok; revert Hok; run_all; intros Hok;
        try discriminate Hok; split; reflexivity.
Qed.

End CurrentLayout.

Section CurrentLayoutRuns.
Import Double.
Local Open Scope string_scope.

Lemma storage_check_against_current_implementation_witness :
  (exists current m v,
      getImplementationAddress "hardhat" "0xProxy" (env live) = Ok current
      /\ readValidations "hardhat" (env live) = Ok v
      /\ Manifest_forNetwork "hardhat" (env live) = Ok m
      /\ getStorageLayoutForAddress m v current (env live) (manifest live)
         = Ok ["owner"; "total"]
      /\ In (EGetImplementationAddress "hardhat" "0xProxy" (Ok current))
            (trace (deployProxyImpl "hardhat" V2 noOptions (Some "0xProxy")
                      live))
      /\ In (EGetStorageLayoutForAddress m v current (Ok ["owner"; "total"]))
            (trace (deployProxyImpl "hardhat" V2 noOptions (Some "0xProxy")
                      live)))
  /\ (exists current m v,
        getImplementationAddressFromBeacon "hardhat" "0xBeacon" (env live)
        = Ok current
        /\ readValidations "hardhat" (env live) = Ok v
        /\ Manifest_forNetwork "hardhat" (env live) = Ok m
        /\ getStorageLayoutForAddress m v current (env live) (manifest live)
           = Ok ["owner"; "total"]
        /\ In (EGetImplementationAddressFromBeacon "hardhat" "0xBeacon"
                 (Ok current))
              (trace (deployBeaconImpl "hardhat" V2 noOptions (Some "0xBeacon")
                        live))
        /\ In (EGetStorageLayoutForAddress m v current (Ok ["owner"; "total"]))
              (trace (deployBeaconImpl "hardhat" V2 noOptions (Some "0xBeacon")
                        live)))
  /\ count callsAssertStorageUpgradeSafe
       (trace (deployProxyImpl "hardhat" V2 noOptions (Some "0xProxy") live))
     = 1
  /\ count callsAssertStorageUpgradeSafe
       (trace (deployBeaconImpl "hardhat" V2 noOptions (Some "0xBeacon") live))
     = 1.
Proof.
  destruct (storage_check_against_current_implementation
              (C := collaborators) "hardhat" V2 noOptions "0xProxy" live)
    as (Hproxy & _ & (_ & _ & HproxyOnce) & _).
  destruct (storage_check_against_current_implementation
              (C := collaborators) "hardhat" V2 noOptions "0xBeacon" live)
    as (_ & Hbeacon & _ & (_ & _ & HbeaconOnce)).
  split.
  { apply (Hproxy ["owner"; "total"] ["owner"; "total"; "paused"]
             (withDefaults noOptions) (Ok tt)).
    vm_compute. do 11 right. left. reflexivity. }
  split.
  { apply (Hbeacon ["owner"; "total"] ["owner"; "total"; "paused"]
             (withDefaults noOptions) (Ok tt)).
    vm_compute. do 11 right. left. reflexivity. }
  split.
  - exact (proj2 (HproxyOnce eq_refl)).
  - exact (proj2 (HbeaconOnce eq_refl)).
Defined.

End CurrentLayoutRuns.

(** ** Fresh deployments *)

Section FreshDeployment.
Context {T : ExternalTypes} {C : Collaborators}.

(** C9: a fresh deployment through either entry point, whatever the
    options, never opens a manifest with [Manifest.forNetwork], never
    reads a current implementation, never invokes
    [getStorageLayoutForAddress] and never invokes
    [assertStorageUpgradeSafe]; [assertUpgradeSafe] alone gates the
    deployment: [fetchOrDeployGetDeployment] is called exactly when
    [assertUpgradeSafe] was called and passed. *)
Theorem fresh_deployment_has_no_storage_check
    (hre : HardhatRuntimeEnvironment) (ImplFactory : ContractFactory)
    (opts : Options) (s : State) :
  let fresh (t : list Event) :=
    never opensManifest t = true
    /\ never callsGetStorageLayoutForAddress t = true
    /\ never callsAssertStorageUpgradeSafe t = true
    /\ never readsCurrentImplementation t = true
    /\ existsb callsFetchOrDeploy t = existsb upgradeSafePassed t in
  fresh (trace (deployProxyImpl hre ImplFactory opts None s))
  /\ fresh (trace (deployBeaconImpl hre ImplFactory opts None s)).
Proof.
  intros fresh. subst fresh. unfold_orchestrator. unfold never.
  split; run_all; repeat split; reflexivity.
Qed.

End FreshDeployment.

(** ** Classification of the target *)

Section Classification.
Context {T : ExternalTypes} {C : Collaborators}.

(** C6: on a beacon upgrade [assertNotProxy] has passed before the current
    implementation is resolved or anything is deployed; when the target
    matches a proxy pattern the run fails, without resolving the current
    implementation, consulting the cache or deploying, and the failure is
    [NotABeaconTargetError] as soon as the deploy data resolved. *)
Theorem beacon_upgrade_rejects_proxy_target
    (hre : HardhatRuntimeEnvironment) (ImplFactory : ContractFactory)
    (opts : Options) (beaconAddress : string) (s : State) :
  let p := network_provider hre in
  let run := deployBeaconImpl hre ImplFactory opts (Some beaconAddress) s in
  guardedBy assertNotProxyPassed resolvesOrDeploys (trace run) = true
  /\ (matchesProxyPattern p beaconAddress (env s) = Ok true ->
      isOk (result run) = false
      /\ never resolvesOrDeploys (trace run) = true
      /\ final run = s
      /\ (isOk (result (getDeployData hre ImplFactory opts s)) = true ->
          result run = Err NotABeaconTargetError
          /\ In (EAssertNotProxy p beaconAddress (Err NotABeaconTargetError))
                (trace run))).
Proof.
  intros p run. subst p run. split.
  - unfold_orchestrator. run_all; reflexivity.
  - intros Hproxy. unfold_orchestrator. unfold never.
    run_all;
      repeat match goal with
        | H : assertNotProxy_result _ _ _ = _ |- _ =>
            unfold assertNotProxy_result in H; rewrite Hproxy in H;
            inversion H; subst; clear H
        end;
      destruct s; repeat split; try reflexivity; try discriminate; auto 10.
Qed.

(** C7: on every proxy deployment [processProxyKind] has classified the
    target and checked it against the requested kind before any safety
    gate, cache lookup or deployment runs; when the kind found at the proxy
    address differs from the kind requested in the options the run fails,
    without any gate or deployment, and the failure is
    [ProxyKindMismatchError] as soon as the deploy data resolved. *)
Theorem proxy_kind_checked_before_gates
    (hre : HardhatRuntimeEnvironment) (ImplFactory : ContractFactory)
    (opts : Options) (proxyAddress : option string) (s : State) :
  let p := network_provider hre in
  let run := deployProxyImpl hre ImplFactory opts proxyAddress s in
  guardedBy processProxyKindPassed runsGateOrDeployment (trace run) = true
  /\ (forall a found requested,
        proxyAddress = Some a ->
        classifyProxyKind p a (env s) = Ok found ->
        kind opts = Some requested ->
        ProxyKind_eqb requested found = false ->
        isOk (result run) = false
        /\ never runsGateOrDeployment (trace run) = true
        /\ never readsCurrentImplementation (trace run) = true
        /\ final run = s
        /\ (forall d,
              result (getDeployData hre ImplFactory opts s) = Ok d ->
              result run = Err ProxyKindMismatchError
              /\ In (EProcessProxyKind p proxyAddress opts (validations d)
                       (version d) (Err ProxyKindMismatchError))
                    (trace run))).
Proof.
  intros p run. subst p run. split.
  - unfold_orchestrator. destruct proxyAddress; run_all; reflexivity.
  - intros a found requested -> Hfound Hkind Hdiff.
    unfold_orchestrator. unfold never.
    run_all;
      repeat match goal with
        | H : processProxyKind_result _ _ _ _ _ _ = _ |- _ =>
            unfold processProxyKind_result in H;
            rewrite Hfound, Hkind, Hdiff in H;
            inversion H; subst; clear H
        end;
      destruct s; repeat split; try reflexivity; try discriminate;
      try match goal with
        | H : Ok _ = Ok _ |- _ => inversion H; subst; simpl; auto 12
        end.
Qed.

End Classification.

Section ClassificationRuns.
Import Double.
Local Open Scope string_scope.

Lemma beacon_upgrade_rejects_proxy_target_witness :
  result (deployBeaconImpl "hardhat" V2 noOptions (Some "0xProxy") live)
    = Err NotABeaconTargetError
  /\ never resolvesOrDeploys
       (trace (deployBeaconImpl "hardhat" V2 noOptions (Some "0xProxy") live))
     = true.
Proof.
  destruct (proj2 (beacon_upgrade_rejects_proxy_target (C := collaborators)
                     "hardhat" V2 noOptions "0xProxy" live) eq_refl)
    as (_ & Hnever & _ & Herror).
  split; [apply Herror; reflexivity | exact Hnever].
Defined.

Lemma proxy_kind_checked_before_gates_witness :
  result (deployProxyImpl "hardhat" V2 requestUups (Some "0xProxy") live)
    = Err ProxyKindMismatchError
  /\ never runsGateOrDeployment
       (trace (deployProxyImpl "hardhat" V2 requestUups (Some "0xProxy") live))
     = true.
Proof.
  destruct (proj2 (proxy_kind_checked_before_gates (C := collaborators)
                     "hardhat" V2 requestUups (Some "0xProxy") live)
              "0xProxy" transparent uups eq_refl eq_refl eq_refl eq_refl)
    as (_ & Hnever & _ & _ & Herror).
  split; [| exact Hnever].
  apply (Herror (@mkDeployData types "hardhat" project "60V2" ""
                   (mkVersion "60V2:" "60V2" "60V2:")
                   ["owner"; "total"; "paused"] (withDefaults requestUups))).
  reflexivity.
Defined.

End ClassificationRuns.

(** ** Version derivation *)

Section VersionDerivation.
Context {T : ExternalTypes} {C : Collaborators}.


End VersionDerivation.

Section VersionDerivationRuns.
Import Double Fixtures.
Local Open Scope string_scope.



End VersionDerivationRuns.

(** ** What the cache records *)

Section RecordedDeployment.
Context {T : ExternalTypes} {C : Collaborators}.

(** C10: in a run of either entry point, every record handed to the cache
    for insertion comes from a cache miss followed by a deployment of
    [ImplFactory]; it carries the layout that [getStorageLayout] returned
    in [getDeployData] for the version it is recorded under, and the
    minimal-format ABI of the factory; when the write goes through it is
    the record the manifest holds for that version at the end of the run,
    and when it does not the run fails with [OrphanedDeploymentError] and
    the manifest is as it was.  Whenever [deploy] succeeded its address is
    handed over in such a record; the run stops only when a call raised;
    and a run that returns has looked its version up and, on a miss,
    inserted a record. *)
Theorem recorded_deployment_carries_candidate_layout
    (hre : HardhatRuntimeEnvironment) (ImplFactory : ContractFactory)
    (opts : Options) (target : option string) (s : State) :
  let recordsCandidate (run : Result DeployedImpl * State * list Event) :=
    (forall ver rec r,
        In (EManifestInsert ver rec r) (trace run) ->
        exists v deployed,
          In (EGetStorageLayout v ver (Ok (rec_layout rec))) (trace run)
          /\ readValidations hre (env s) = Ok v
          /\ getStorageLayout v ver = Ok (rec_layout rec)
          /\ format_minimal ImplFactory = Ok (rec_abi rec)
          /\ In (EManifestGet ver None) (trace run)
          /\ In (EDeploy ImplFactory (req_constructorArgs (withDefaults opts))
                   (Ok deployed)) (trace run)
          /\ rec_address rec = dr_address deployed
          /\ rec_txHash rec = dr_txHash deployed
          /\ match r with
             | Ok _ => manifest_get ver (manifest (final run)) = Some rec
             | Err e =>
                 e = OrphanedDeploymentError (rec_address rec)
                 /\ result run = Err e
                 /\ manifest (final run) = manifest s
             end)
    /\ (forall f args deployed,
          In (EDeploy f args (Ok deployed)) (trace run) ->
          exists ver rec r,
            In (EManifestInsert ver rec r) (trace run)
            /\ rec_address rec = dr_address deployed)
    /\ isOk (result run) = forallb quiet (trace run)
    /\ (isOk (result run) = true ->
        exists ver stored,
          In (EManifestGet ver stored) (trace run)
          /\ manifest_get ver (manifest s) = stored
          /\ (stored = None ->
              exists rec, In (EManifestInsert ver rec (Ok tt)) (trace run))) in
  recordsCandidate (deployProxyImpl hre ImplFactory opts target s)
  /\ recordsCandidate (deployBeaconImpl hre ImplFactory opts target s).
Proof.
  intros recordsCandidate. subst recordsCandidate.
  destruct (returns_unless_raised hre ImplFactory opts target s)
    as [Hproxy Hbeacon].
  split; (split; [| split; [| split; [assumption |]]]);
    clear Hproxy Hbeacon.
  all: unfold_orchestrator.
  1, 4: intros ver rec r;
    destruct target; run_all; intros Hin;
    repeat match goal with
      | H : _ \/ _ |- _ => destruct H
      | H : False |- _ => destruct H
      end;
    try discriminate;
    match goal with H : _ = EManifestInsert _ _ _ |- _ =>
      inversion H; subst; clear H end;
    do 2 eexists; simpl;
    repeat split; simpl;
    try (apply manifest_get_insert_absent; assumption);
    eauto 20.
  1, 3: intros f args deployed;
    destruct target; run_all; intros Hin;
    repeat match goal with
      | H : _ \/ _ |- _ => destruct H
      | H : False |- _ => destruct H
      end;
    try discriminate;
    match goal with H : _ = EDeploy _ _ _ |- _ =>
      inversion H; subst; clear H end;
    do 3 eexists; (split; [simpl; eauto 20 | reflexivity]).
  all: intros Hok; revert Hok;
    destruct target; run_all; intros Hok; try discriminate Hok;
    do 2 eexists; (split; [simpl; eauto 20 |]);
    (split; [eassumption |]);
    intros Hmiss; try discriminate Hmiss; eexists; simpl; eauto 20.
Qed.

End RecordedDeployment.

Section RecordedDeploymentRuns.
Import Double.
Local Open Scope string_scope.

Lemma recorded_deployment_carries_candidate_layout_witness :
  let ver := mkVersion "60V1:" "60V1" "60V1:" in
  let rec := @mkDeploymentRecord types "0xImpl1" (Some "0xTx1")
               ["owner"; "total"] ["function total()"] in
  let recorded (run : Result DeployedImpl * State * list Event) :=
    exists v deployed,
      In (EGetStorageLayout v ver (Ok (rec_layout rec))) (trace run)
      /\ readValidations "hardhat" (env blank) = Ok v
      /\ getStorageLayout v ver = Ok (rec_layout rec)
      /\ format_minimal V1 = Ok (rec_abi rec)
      /\ In (EManifestGet ver None) (trace run)
      /\ In (EDeploy V1 (req_constructorArgs (withDefaults noOptions))
               (Ok deployed)) (trace run)
      /\ rec_address rec = dr_address deployed
      /\ rec_txHash rec = dr_txHash deployed
      /\ manifest_get ver (manifest (final run)) = Some rec in
  recorded (deployProxyImpl "hardhat" V1 noOptions None blank)
  /\ recorded (deployBeaconImpl "hardhat" V1 noOptions None blank).
Proof.
  intros ver rec recorded. subst recorded.
  destruct (recorded_deployment_carries_candidate_layout
              (C := collaborators) "hardhat" V1 noOptions None blank)
    as ((Hproxy & _) & (Hbeacon & _)).
  split.
  - apply (Hproxy ver rec (Ok tt)).
    vm_compute. do 12 right. left. reflexivity.
  - apply (Hbeacon ver rec (Ok tt)).
    vm_compute. do 11 right. left. reflexivity.
Defined.

End RecordedDeploymentRuns.

(** ** Idempotence *)

Section Idempotence.
Context {T : ExternalTypes} {C : Collaborators}.

(** [deployImpl] called again with the same arguments, in the state its
    first call left and with the manifest and the recorded layout answering
    as before: the version is found in the manifest and nothing is
    deployed. *)
Lemma deployImpl_repeat
    (hre : HardhatRuntimeEnvironment) (deployData : DeployData)
    (ImplFactory : ContractFactory) (opts : Options)
    (currentImplAddress : option string) (s s1 : State)
    (d1 : DeployedImpl) (t1 : list Event) :
  deployImpl hre deployData ImplFactory opts currentImplAddress s
    = (Ok d1, s1, t1) ->
  (forall current,
      currentImplAddress = Some current ->
      Manifest_forNetwork (provider deployData) (env s1)
        = Manifest_forNetwork (provider deployData) (env s)
      /\ forall m,
           getStorageLayoutForAddress m (validations deployData) current
             (env s1) (manifest s1)
           = getStorageLayoutForAddress m (validations deployData) current
               (env s) (manifest s)) ->
  exists rec txr t2,
    manifest_get (version deployData) (manifest s1) = Some rec
    /\ impl d1 = rec_address rec
    /\ count callsDeploy t1
       = match manifest_get (version deployData) (manifest s) with
         | Some _ => 0
         | None => 1
         end
    /\ deployImpl hre deployData ImplFactory opts currentImplAddress s1
       = (Ok (mkDeployedImpl (rec_address rec) (kind opts) txr), s1, t2)
    /\ count callsDeploy t2 = 0
    /\ In (EManifestGet (version deployData) (Some rec)) t2.
Proof.
  intros H1. unfold_in H1. revert H1.
  destruct currentImplAddress as [current |]; run_all; intros H1 Hsame;
    try discriminate H1; inversion H1; subst; clear H1.
  all: try (destruct (Hsame current eq_refl) as [Hm Hl]; simpl in Hm, Hl).
  all: unfold deployImpl, fetchOrDeployGetDeployment, deployCallback,
         readManifest, writeManifest, emit, bind, ret, sync, await,
         awaitManifest, awaitTx.
  all: replay.
  all: run_all.
  all: do 3 eexists; repeat split; simpl; eauto 10;
       try (apply manifest_get_insert_absent; assumption).
Qed.

(** [getDeployData] leaves the external state alone and deploys nothing. *)
Lemma getDeployData_frame (hre : HardhatRuntimeEnvironment)
    (ImplFactory : ContractFactory) (opts : Options) (s : State) :
  final (getDeployData hre ImplFactory opts s) = s
  /\ count callsDeploy (trace (getDeployData hre ImplFactory opts s)) = 0
  /\ forall d,
       result (getDeployData hre ImplFactory opts s) = Ok d ->
       provider d = network_provider hre
       /\ readValidations hre (env s) = Ok (validations d)
       /\ fullOpts d = withDefaults opts.
Proof.
  unfold_orchestrator. run_all; repeat split; try discriminate;
    match goal with
    | H : Ok _ = Ok _ |- _ => inversion H; subst; reflexivity || assumption
    end.
Qed.

(** What [getDeployData] resolves depends on the state only through the
    validations read. *)
Lemma getDeployData_same (hre : HardhatRuntimeEnvironment)
    (ImplFactory : ContractFactory) (opts : Options) (s s1 : State) :
  readValidations hre (env s1) = readValidations hre (env s) ->
  result (getDeployData hre ImplFactory opts s1)
  = result (getDeployData hre ImplFactory opts s).
Proof.
  intros H. unfold_orchestrator. rewrite H. run_all; reflexivity.
Qed.


Lemma processProxyKind_result_same (p : EthereumProvider)
    (target : option string) (opts : Options) (v : ValidationDataCurrent)
    (ver : Version) (e e1 : Env) :
  (forall a, target = Some a ->
             classifyProxyKind p a e1 = classifyProxyKind p a e) ->
  processProxyKind_result p target opts v ver e1
  = processProxyKind_result p target opts v ver e.
Proof.
  intros H. unfold processProxyKind_result.
  destruct target as [a |]; [rewrite (H a eq_refl) |]; reflexivity.
Qed.

Lemma assertNotProxy_result_same (p : EthereumProvider) (a : string)
    (e e1 : Env) :
  matchesProxyPattern p a e1 = matchesProxyPattern p a e ->
  assertNotProxy_result p a e1 = assertNotProxy_result p a e.
Proof. intros H. unfold assertNotProxy_result. rewrite H. reflexivity. Qed.

(** A call of [deployImpl] that returns has looked its version up. *)
Lemma deployImpl_lookup
    (hre : HardhatRuntimeEnvironment) (deployData : DeployData)
    (ImplFactory : ContractFactory) (opts : Options)
    (currentImplAddress : option string) (s s1 : State)
    (d1 : DeployedImpl) (t1 : list Event) :
  deployImpl hre deployData ImplFactory opts currentImplAddress s
    = (Ok d1, s1, t1) ->
  In (EManifestGet (version deployData)
        (manifest_get (version deployData) (manifest s))) t1.
Proof.
  intros H1. unfold_in H1. revert H1.
  destruct currentImplAddress as [current |]; run_all; intros H1;
    try discriminate H1; inversion H1; subst; simpl; auto 10.
Qed.

Lemma deployProxyImpl_repeat (hre : HardhatRuntimeEnvironment)
    (ImplFactory : ContractFactory) (opts : Options)
    (target : option string) (s : State) :
  isOk (result (deployProxyImpl hre ImplFactory opts target s)) = true ->
  sameAnswers hre target s
    (final (deployProxyImpl hre ImplFactory opts target s)) ->
  secondCallHitsCache s (deployProxyImpl hre ImplFactory opts target).
Proof.
  unfold secondCallHitsCache.
  destruct (deployProxyImpl hre ImplFactory opts target s)
    as [[r1 s1] t1] eqn:H1.
  unfold result, final, trace. simpl. intros Hok [Hval Hsame].
  destruct r1 as [d1 |]; [clear Hok | discriminate].
  unfold deployProxyImpl in H1.
  apply bind_ok in H1. destruct H1 as (d & s' & t0 & t0' & Hdd & H1 & ->).
  destruct (getDeployData_frame hre ImplFactory opts s) as (Hf & Hc0 & Hd).
  rewrite Hdd in Hf, Hc0, Hd. unfold final, trace, result in Hf, Hc0, Hd.
  simpl in Hf, Hc0, Hd. subst s'.
  destruct (Hd d eq_refl) as (Hp & _ & _). clear Hd.
  apply bind_ok in H1. destruct H1 as (k & s' & tk & tk' & Hk & H1 & ->).
  unfold processProxyKind, await in Hk. inversion Hk; subst s' tk; clear Hk.
  rename H0 into Hk.
  apply bind_ok in H1. destruct H1 as (cur & s' & tc & tc' & Hcur & H1 & ->).
  (* the second run resolves the same deploy data *)
  destruct (getDeployData hre ImplFactory opts s1) as [[r2 s2] u0] eqn:Hdd2.
  destruct (getDeployData_frame hre ImplFactory opts s1) as (Hf2 & Hc2 & _).
  pose proof (getDeployData_same hre ImplFactory opts s s1 Hval) as Hr2.
  rewrite Hdd, Hdd2 in Hr2. rewrite Hdd2 in Hf2, Hc2.
  unfold final, trace, result in Hf2, Hc2, Hr2. simpl in Hf2, Hc2, Hr2.
  subst s2 r2.
  assert (Hk2 : processProxyKind_result (provider d) target opts
                  (validations d) (version d) (env s1) = Ok k).
  { rewrite <- Hk. apply processProxyKind_result_same.
    intros a Ha. rewrite Hp. apply (Hsame a Ha). }
  destruct target as [a |].
  - destruct (Hsame a eq_refl) as (_ & _ & Himpl & _ & Hman & Hlay).
    unfold bind, await, ret in Hcur.
    destruct (getImplementationAddress (provider d) a (env s)) as [c |] eqn:Hc;
      [| discriminate].
    inversion Hcur; subst cur s' tc; clear Hcur.
    destruct (deployImpl_repeat _ _ _ _ _ _ _ _ _ H1) as
      (rec & txr & t2 & Hget & Himp & Hcount & Hrun2 & Hcount2 & Hin2).
    { intros current Hcurrent. inversion Hcurrent; subst current.
      rewrite Hp. split; [exact Hman |].
      intros m. apply Hlay. left. rewrite <- Hp. exact Hc. }
    pose proof (deployImpl_lookup _ _ _ _ _ _ _ _ _ H1) as Hin1.
    exists (version d), rec, d1.
    eexists.
    unfold deployProxyImpl.
    erewrite (bind_run _ _ s1); [| exact Hdd2 |].
    2:{ erewrite (bind_run _ _ s1);
          [| unfold processProxyKind, await; rewrite Hk2; reflexivity |].
        2:{ erewrite (bind_run _ _ s1); [| | exact Hrun2].
            - reflexivity.
            - unfold bind, await, ret. rewrite Hp, Himpl, <- Hp, Hc.
              reflexivity. }
        reflexivity. }
    simpl. repeat (rewrite count_app || rewrite count_cons). simpl.
    rewrite Hc0, Hc2, Hcount, Hcount2. simpl.
    finish_repeat.
  - unfold ret in Hcur. inversion Hcur; subst cur s' tc; clear Hcur.
    destruct (deployImpl_repeat _ _ _ _ _ _ _ _ _ H1) as
      (rec & txr & t2 & Hget & Himp & Hcount & Hrun2 & Hcount2 & Hin2).
    { intros current Hcurrent. discriminate Hcurrent. }
    pose proof (deployImpl_lookup _ _ _ _ _ _ _ _ _ H1) as Hin1.
    exists (version d), rec, d1.
    eexists.
    unfold deployProxyImpl.
    erewrite (bind_run _ _ s1); [| exact Hdd2 |].
    2:{ erewrite (bind_run _ _ s1);
          [| unfold processProxyKind, await; rewrite Hk2; reflexivity |].
        2:{ erewrite (bind_run _ _ s1); [| | exact Hrun2].
            - reflexivity.
            - unfold ret. reflexivity. }
        reflexivity. }
    simpl. repeat (rewrite count_app || rewrite count_cons). simpl.
    rewrite Hc0, Hc2, Hcount, Hcount2. simpl.
    finish_repeat.
Qed.


Lemma deployBeaconImpl_repeat (hre : HardhatRuntimeEnvironment)
    (ImplFactory : ContractFactory) (opts : Options)
    (target : option string) (s : State) :
  isOk (result (deployBeaconImpl hre ImplFactory opts target s)) = true ->
  sameAnswers hre target s
    (final (deployBeaconImpl hre ImplFactory opts target s)) ->
  secondCallHitsCache s (deployBeaconImpl hre ImplFactory opts target).
Proof.
  unfold secondCallHitsCache.
  destruct (deployBeaconImpl hre ImplFactory opts target s)
    as [[r1 s1] t1] eqn:H1.
  unfold result, final, trace. simpl. intros Hok [Hval Hsame].
  destruct r1 as [d1 |]; [clear Hok | discriminate].
  unfold deployBeaconImpl in H1.
  apply bind_ok in H1. destruct H1 as (d & s' & t0 & t0' & Hdd & H1 & ->).
  destruct (getDeployData_frame hre ImplFactory opts s) as (Hf & Hc0 & Hd).
  rewrite Hdd in Hf, Hc0, Hd. unfold final, trace, result in Hf, Hc0, Hd.
  simpl in Hf, Hc0, Hd. subst s'.
  destruct (Hd d eq_refl) as (Hp & _ & _). clear Hd.
  apply bind_ok in H1. destruct H1 as (cur & s' & tc & tc' & Hcur & H1 & ->).
  destruct (getDeployData hre ImplFactory opts s1) as [[r2 s2] u0] eqn:Hdd2.
  destruct (getDeployData_frame hre ImplFactory opts s1) as (Hf2 & Hc2 & _).
  pose proof (getDeployData_same hre ImplFactory opts s s1 Hval) as Hr2.
  rewrite Hdd, Hdd2 in Hr2. rewrite Hdd2 in Hf2, Hc2.
  unfold final, trace, result in Hf2, Hc2, Hr2. simpl in Hf2, Hc2, Hr2.
  subst s2 r2.
  destruct target as [a |].
  - destruct (Hsame a eq_refl) as (_ & Hpat & _ & Himpl & Hman & Hlay).
    unfold assertNotProxy, bind, await, ret in Hcur.
    destruct (assertNotProxy_result (provider d) a (env s)) as [u |] eqn:Hnp;
      [| discriminate].
    destruct (getImplementationAddressFromBeacon (provider d) a (env s))
      as [c |] eqn:Hc; [| discriminate].
    inversion Hcur; subst cur s' tc; clear Hcur.
    assert (Hnp2 : assertNotProxy_result (provider d) a (env s1) = Ok u).
    { rewrite <- Hnp. apply assertNotProxy_result_same.
      rewrite Hp. exact Hpat. }
    destruct (deployImpl_repeat _ _ _ _ _ _ _ _ _ H1) as
      (rec & txr & t2 & Hget & Himp & Hcount & Hrun2 & Hcount2 & Hin2).
    { intros current Hcurrent. inversion Hcurrent; subst current.
      rewrite Hp. split; [exact Hman |].
      intros m. apply Hlay. right. rewrite <- Hp. exact Hc. }
    pose proof (deployImpl_lookup _ _ _ _ _ _ _ _ _ H1) as Hin1.
    exists (version d), rec, d1.
    eexists.
    unfold deployBeaconImpl.
    erewrite (bind_run _ _ s1); [| exact Hdd2 |].
    2:{ erewrite (bind_run _ _ s1); [| | exact Hrun2].
        - reflexivity.
        - unfold assertNotProxy, bind, await, ret.
          rewrite Hnp2, Hp, Himpl, <- Hp, Hc. reflexivity. }
    simpl. repeat (rewrite count_app || rewrite count_cons). simpl.
    rewrite Hc0, Hc2, Hcount, Hcount2. simpl.
    finish_repeat.
  - unfold ret in Hcur. inversion Hcur; subst cur s' tc; clear Hcur.
    destruct (deployImpl_repeat _ _ _ _ _ _ _ _ _ H1) as
      (rec & txr & t2 & Hget & Himp & Hcount & Hrun2 & Hcount2 & Hin2).
    { intros current Hcurrent. discriminate Hcurrent. }
    pose proof (deployImpl_lookup _ _ _ _ _ _ _ _ _ H1) as Hin1.
    exists (version d), rec, d1.
    eexists.
    unfold deployBeaconImpl.
    erewrite (bind_run _ _ s1); [| exact Hdd2 |].
    2:{ erewrite (bind_run _ _ s1); [| | exact Hrun2].
        - reflexivity.
        - unfold ret. reflexivity. }
    simpl. repeat (rewrite count_app || rewrite count_cons). simpl.
    rewrite Hc0, Hc2, Hcount, Hcount2. simpl.
    finish_repeat.
Qed.

(** C4, as the source has it: when no call of a first run of either
    entry point raised, and the collaborators consulted before the cache
    answer a second, identical call as they answered the first, both calls
    return; the second looks the same version up, hits the record the
    manifest held after the first call, returns the address the first call
    returned and invokes [deploy] zero times; and the two calls together
    send one deployment transaction when the version was absent from the
    manifest, and none when it was already recorded. *)
Theorem second_call_hits_cache
    (hre : HardhatRuntimeEnvironment) (ImplFactory : ContractFactory)
    (opts : Options) (target : option string) (s : State) :
  let repeatable (entry : M DeployedImpl) :=
    forallb quiet (trace (entry s)) = true ->
    sameAnswers hre target s (final (entry s)) ->
    secondCallHitsCache s entry in
  repeatable (deployProxyImpl hre ImplFactory opts target)
  /\ repeatable (deployBeaconImpl hre ImplFactory opts target).
Proof.
  intros repeatable. subst repeatable.
  destruct (returns_unless_raised hre ImplFactory opts target s)
    as [Hproxy Hbeacon].
  split; intros Hquiet Hsame.
  - apply deployProxyImpl_repeat; [| exact Hsame].
    rewrite Hproxy. exact Hquiet.
  - apply deployBeaconImpl_repeat; [| exact Hsame].
    rewrite Hbeacon. exact Hquiet.
Qed.

End Idempotence.

Section IdempotenceRuns.
Import Double.
Local Open Scope string_scope.

Lemma second_call_hits_cache_witness :
  secondCallHitsCache live
    (deployProxyImpl "hardhat" V2 withArgs (Some "0xProxy"))
  /\ secondCallHitsCache live
       (deployBeaconImpl "hardhat" V2 withArgs (Some "0xBeacon")).
Proof.
  split.
  - apply (proj1 (second_call_hits_cache (C := collaborators)
                    "hardhat" V2 withArgs (Some "0xProxy") live)).
    + reflexivity.
    + split; [reflexivity |].
      intros a Ha. inversion Ha; subst a.
      repeat split.
      intros m v current [H | H]; vm_compute in H; [| discriminate H].
      inversion H; subst current. reflexivity.
  - apply (proj2 (second_call_hits_cache (C := collaborators)
                    "hardhat" V2 withArgs (Some "0xBeacon") live)).
    + reflexivity.
    + split; [reflexivity |].
      intros a Ha. inversion Ha; subst a.
      repeat split.
      intros m v current [H | H]; vm_compute in H; [discriminate H |].
      inversion H; subst current. reflexivity.
Defined.

(** C4 as the spec states it fails: [V1] is already recorded in the live
    manifest; two identical upgrades to it both return, against the same
    network and manifest, and together they send no deployment
    transaction, not one. *)
Lemma recorded_version_is_not_deployed_again :
  let first := deployProxyImpl "hardhat" V1 noOptions (Some "0xProxy") live in
  let second :=
    deployProxyImpl "hardhat" V1 noOptions (Some "0xProxy") (final first) in
  isOk (result first) = true
  /\ isOk (result second) = true
  /\ final first = live
  /\ final second = live
  /\ count callsDeploy (trace first ++ trace second) = 0
  /\ count callsDeploy (trace first ++ trace second) <> 1.
Proof.
  repeat split; vm_compute; discriminate.
Qed.

End IdempotenceRuns.

(** ** Scenarios of section 8 of the spec, on the test double *)

Section Scenarios.
Import Double.
Local Open Scope string_scope.

(** Deploying [V1] on a blank network returns a new address and inserts
    one manifest record under its version. *)
Example fresh_deploy_records_one :
  let run := deployProxyImpl "hardhat" V1 noOptions None blank in
  result run = Ok (mkDeployedImpl "0xImpl1" None None)
  /\ manifest (final run)
     = [(mkVersion "60V1:" "60V1" "60V1:",
         mkDeploymentRecord "0xImpl1" (Some "0xTx1") ["owner"; "total"]
           ["function total()"])]
  /\ count callsDeploy (trace run) = 1.
Proof. repeat split. Qed.

(** Deploying the same source and arguments again returns the same address
    and sends nothing. *)
Example redeploy_sends_nothing :
  let first := deployProxyImpl "hardhat" V1 noOptions None blank in
  let second := deployProxyImpl "hardhat" V1 noOptions None (final first) in
  result second = result first
  /\ count callsDeploy (trace second) = 0
  /\ final second = final first.
Proof. repeat split. Qed.

(** Upgrading the proxy to a version that swaps two variables fails in the
    storage check, before the cache is consulted. *)
Example reordered_upgrade_is_rejected :
  let run := deployProxyImpl "hardhat" V2swap noOptions (Some "0xProxy") live in
  result run = Err (StorageLayoutError ["owner"; "total"])
  /\ never callsFetchOrDeploy (trace run) = true
  /\ final run = live.
Proof. repeat split. Qed.

(** An implementation with a finding is rejected by [assertUpgradeSafe]
    before the current layout is looked at. *)
Example unsafe_implementation_is_rejected :
  let run := deployProxyImpl "hardhat" Bad noOptions (Some "0xProxy") live in
  result run = Err (UpgradeSafetyError ["selfdestruct"])
  /\ never callsGetStorageLayoutForAddress (trace run) = true
  /\ never callsFetchOrDeploy (trace run) = true.
Proof. repeat split. Qed.

(** With [getTxResponse] a fresh deployment hands out its transaction, and
    a cached one the promise of [getTransaction]. *)
Example transaction_handles :
  let first := deployProxyImpl "hardhat" V2 withArgs (Some "0xProxy") live in
  let second :=
    deployProxyImpl "hardhat" V2 withArgs (Some "0xProxy") (final first) in
  result first
  = Ok (mkDeployedImpl "0xImpl1" (Some transparent) (Some (TxDirect "0xTx1")))
  /\ result second
     = Ok (mkDeployedImpl "0xImpl1" (Some transparent)
             (Some (TxPromise (Ok "0xTx1"))))
  /\ count callsDeploy (trace first ++ trace second) = 1.
Proof. repeat split. Qed.

(** On a store that takes no write, a fresh deployment goes through on the
    chain, and the failure to record it is surfaced with the deployed
    address; the manifest is as it was. *)
Example unrecorded_deployment_is_surfaced :
  let run := deployProxyImpl (C := Fixtures.fullDisk) "hardhat" V1 noOptions
               None blank in
  result run = Err (OrphanedDeploymentError "0xImpl1")
  /\ count callsDeploy (trace run) = 1
  /\ manifest (final run) = []
  /\ env (final run) = 1.
Proof. repeat split. Qed.

End Scenarios.

(** ** How the orchestrator uses its collaborators *)

Section Collaboration.
Context {T : ExternalTypes} {C : Collaborators}.

(** X1: neither entry point raises an exception of its own or swallows
    one: a run fails with [e] exactly when the last collaborator call it
    made raised [e], every call before it having answered; in a run that
    returns, no call raised. *)
Theorem failure_is_the_last_call_made
    (hre : HardhatRuntimeEnvironment) (ImplFactory : ContractFactory)
    (opts : Options) (target : option string) (s : State) :
  let propagates (run : Result DeployedImpl * State * list Event) :=
    match result run with
    | Err e =>
        option_map raisedBy (lastEvent (trace run)) = Some (Some e)
        /\ forallb quiet (removelast (trace run)) = true
    | Ok _ => forallb quiet (trace run) = true
    end in
  propagates (deployProxyImpl hre ImplFactory opts target s)
  /\ propagates (deployBeaconImpl hre ImplFactory opts target s).
Proof.
  intros propagates. subst propagates. unfold_orchestrator.
  split; destruct target; run_all; repeat split; reflexivity.
Qed.


(** X2: [deployImpl] does not await [getTransaction]: whenever it is
    called, it is called for [hre], once, as the last call of a run that
    returns, and its answer, a rejection included, is handed out inside
    [txResponse]. *)
Theorem getTransaction_failure_is_not_raised
    (hre : HardhatRuntimeEnvironment) (deployData : DeployData)
    (ImplFactory : ContractFactory) (opts : Options)
    (currentImplAddress : option string) (s : State)
    (h : HardhatRuntimeEnvironment) (hash : string)
    (r : Result TransactionResponse) :
  let run := deployImpl hre deployData ImplFactory opts currentImplAddress s in
  In (EGetTransaction h hash r) (trace run) ->
  h = hre
  /\ r = getTransaction hre hash (env (final run))
  /\ truthy (getTxResponse opts) = true
  /\ lastEvent (trace run) = Some (EGetTransaction h hash r)
  /\ count callsGetTransaction (trace run) = 1
  /\ exists d, result run = Ok d /\ txResponse d = Some (TxPromise r).
Proof.
  intros run. subst run. unfold_orchestrator.
  destruct currentImplAddress; run_all; intros Hin;
    repeat match goal with
      | H : _ \/ _ |- _ => destruct H
      | H : False |- _ => destruct H
      end;
    try discriminate;
    match goal with H : _ = EGetTransaction _ _ _ |- _ =>
      inversion H; subst; clear H end;
    repeat split; eauto.
Qed.

(** X3: unless [opts.getTxResponse] is truthy, [getTransaction] is never
    called and a run that returns has no [txResponse]. *)
Theorem no_transaction_lookup_unless_requested
    (hre : HardhatRuntimeEnvironment) (ImplFactory : ContractFactory)
    (opts : Options) (target : option string) (s : State) :
  truthy (getTxResponse opts) = false ->
  let unrequested (run : Result DeployedImpl * State * list Event) :=
    never callsGetTransaction (trace run) = true
    /\ forall d, result run = Ok d -> txResponse d = None in
  unrequested (deployProxyImpl hre ImplFactory opts target s)
  /\ unrequested (deployBeaconImpl hre ImplFactory opts target s).
Proof.
  intros Hno unrequested. subst unrequested. unfold_orchestrator.
  unfold never.
  split; destruct target; run_all; try congruence;
    (split; [reflexivity |]); intros d0 Hd; inversion Hd; reflexivity.
Qed.

(** X4: on an upgrade, whatever [unsafeSkipStorageCheck] says, a failure
    of [Manifest.forNetwork] or of [getStorageLayoutForAddress] (the
    current implementation is not recorded, say) fails [deployImpl] with
    that exception: the storage check, the cache and [deploy] are never
    reached and the external state is left as it was. *)
Theorem layout_lookup_failure_blocks_upgrade
    (hre : HardhatRuntimeEnvironment) (deployData : DeployData)
    (ImplFactory : ContractFactory) (opts : Options)
    (currentImplAddress : string) (s : State) (e : UpgradesError) :
  let run := deployImpl hre deployData ImplFactory opts
               (Some currentImplAddress) s in
  isOk (assertUpgradeSafe (validations deployData) (version deployData)
          (fullOpts deployData)) = true ->
  Manifest_forNetwork (provider deployData) (env s) = Err e
  \/ (exists m,
        Manifest_forNetwork (provider deployData) (env s) = Ok m
        /\ getStorageLayoutForAddress m (validations deployData)
             currentImplAddress (env s) (manifest s) = Err e) ->
  result run = Err e
  /\ never callsAssertStorageUpgradeSafe (trace run) = true
  /\ never callsFetchOrDeploy (trace run) = true
  /\ never callsDeploy (trace run) = true
  /\ final run = s.
Proof.
  intros run Hsafe Hfail. subst run. unfold_orchestrator. unfold never.
  destruct (assertUpgradeSafe _ _ _); [| discriminate]. simpl.
  destruct Hfail as [Hm | (m & Hm & Hl)]; rewrite Hm; simpl.
  - destruct s; repeat split.
  - rewrite Hl. simpl. destruct s; repeat split.
Qed.


(** X5: in a run that returns nothing is retried or repeated: the
    validations are read once, [assertUpgradeSafe] and
    [fetchOrDeployGetDeployment] are called once, with or without a target
    and whatever [unsafeSkipStorageCheck] says; the current implementation
    is read, the manifest opened and [getStorageLayoutForAddress] called
    once on an upgrade and never on a fresh deployment;
    [assertStorageUpgradeSafe] is called once on an upgrade unless
    [unsafeSkipStorageCheck] is [true] itself; [processProxyKind] is called
    once by [deployProxyImpl], target or not, and [assertNotProxy] once by
    [deployBeaconImpl] on an upgrade. *)
Theorem every_step_runs_once
    (hre : HardhatRuntimeEnvironment) (ImplFactory : ContractFactory)
    (opts : Options) (target : option string) (s : State) :
  let upgrade := match target with Some _ => 1 | None => 0 end in
  let checked :=
    match target, unsafeSkipStorageCheck opts with
    | Some _, Some true => 0
    | Some _, _ => 1
    | None, _ => 0
    end in
  let once (run : Result DeployedImpl * State * list Event) :=
    isOk (result run) = true ->
    count callsReadValidations (trace run) = 1
    /\ count callsAssertUpgradeSafe (trace run) = 1
    /\ count readsCurrentImplementation (trace run) = upgrade
    /\ count opensManifest (trace run) = upgrade
    /\ count callsGetStorageLayoutForAddress (trace run) = upgrade
    /\ count callsAssertStorageUpgradeSafe (trace run) = checked
    /\ count callsFetchOrDeploy (trace run) = 1 in
  (once (deployProxyImpl hre ImplFactory opts target s)
   /\ (isOk (result (deployProxyImpl hre ImplFactory opts target s)) = true ->
       count callsProcessProxyKind
         (trace (deployProxyImpl hre ImplFactory opts target s)) = 1))
  /\ (once (deployBeaconImpl hre ImplFactory opts target s)
      /\ (isOk (result (deployBeaconImpl hre ImplFactory opts target s)) = true ->
          count callsAssertNotProxy
            (trace (deployBeaconImpl hre ImplFactory opts target s))
          = upgrade)).
Proof.
  intros upgrade checked once. subst upgrade checked once.
  unfold_orchestrator. unfold storageCheckNotSkipped.
  split; (split; intros Hok; revert Hok; destruct target; run_all;
          intros Hok; try discriminate Hok; repeat split).
Qed.

(** X6: every call of a run is made on the caller's arguments and on
    answers given earlier in the same run: one set of validations and one
    version go to [getStorageLayout], [processProxyKind],
    [assertUpgradeSafe] and the cache; the version is derived from
    [ImplFactory.bytecode] as linked bytecode and the encoding of
    [opts.constructorArgs]; both asserts get [withDefaults(opts)];
    [assertStorageUpgradeSafe] gets as new layout an answer of
    [getStorageLayout]; [getStorageLayoutForAddress] gets the manifest that
    was opened and the address that was read; [deploy] gets [ImplFactory]
    and the defaulted constructor arguments. *)
Theorem calls_are_fed_from_earlier_answers
    (hre : HardhatRuntimeEnvironment) (ImplFactory : ContractFactory)
    (opts : Options) (target : option string) (s : State) (ev : Event) :
  (In ev (trace (deployProxyImpl hre ImplFactory opts target s)) ->
   fedFrom hre ImplFactory opts target
     (trace (deployProxyImpl hre ImplFactory opts target s)) ev)
  /\ (In ev (trace (deployBeaconImpl hre ImplFactory opts target s)) ->
      fedFrom hre ImplFactory opts target
        (trace (deployBeaconImpl hre ImplFactory opts target s)) ev).
Proof.
  unfold_orchestrator.
  split; destruct target; run_all; intros Hin;
    repeat match goal with
      | H : _ \/ _ |- _ => destruct H
      | H : False |- _ => destruct H
      end;
    subst ev; simpl; repeat split; simpl; eauto 20.
Qed.

(** X7: every call that takes a provider is given [hre.network.provider]:
    classification, the read of the current implementation, the manifest
    and the cache all work on one network. *)
Theorem one_provider_throughout
    (hre : HardhatRuntimeEnvironment) (ImplFactory : ContractFactory)
    (opts : Options) (target : option string) (s : State)
    (ev : Event) (p : EthereumProvider) :
  providerOf ev = Some p ->
  (In ev (trace (deployProxyImpl hre ImplFactory opts target s)) ->
   p = network_provider hre)
  /\ (In ev (trace (deployBeaconImpl hre ImplFactory opts target s)) ->
      p = network_provider hre).
Proof.
  intros Hp. unfold_orchestrator.
  split; destruct target; run_all; intros Hin;
    repeat match goal with
      | H : _ \/ _ |- _ => destruct H
      | H : False |- _ => destruct H
      end;
    subst ev; simpl in Hp; try discriminate Hp; inversion Hp; reflexivity.
Qed.


(** X8: the deploy callback formats the ABI before it deploys: when
    [format] throws nothing is sent and the state is untouched; otherwise
    [deploy] is called once with the defaulted constructor arguments, its
    failure is the callback's failure, and on success the callback returns
    [deploy]'s address, transaction hash and transaction with the ABI and
    [deployData.layout].  It never writes the manifest itself. *)
Theorem deployCallback_formats_before_deploying
    (deployData : DeployData) (ImplFactory : ContractFactory) (s : State) :
  let run := deployCallback deployData ImplFactory s in
  let args := req_constructorArgs (fullOpts deployData) in
  manifest (final run) = manifest s
  /\ (forall e,
        format_minimal ImplFactory = Err e ->
        result run = Err e /\ final run = s
        /\ never callsDeploy (trace run) = true)
  /\ (forall minimal,
        format_minimal ImplFactory = Ok minimal ->
        trace run
        = [EFormatMinimal ImplFactory (Ok minimal);
           EDeploy ImplFactory args (fst (deploy ImplFactory args (env s)))]
        /\ env (final run) = snd (deploy ImplFactory args (env s))
        /\ match fst (deploy ImplFactory args (env s)) with
           | Err e => result run = Err e
           | Ok deployed =>
               result run
               = Ok (mkDeployment minimal (dr_address deployed)
                       (dr_txHash deployed) (dr_deployTransaction deployed)
                       (layout deployData))
           end).
Proof.
  intros run args. subst run args. unfold_orchestrator. unfold never.
  split; [run_all; reflexivity |]. split.
  - intros e He. rewrite He. simpl. destruct s. repeat split.
  - intros minimal Hm. rewrite Hm. simpl.
    destruct (deploy ImplFactory _ (env s)) as [[deployed | e] e'];
      simpl; repeat split.
Qed.

(** X9: [deployProxyImpl] never calls [assertNotProxy] or
    [getImplementationAddressFromBeacon]; [deployBeaconImpl] never calls
    [processProxyKind] or [getImplementationAddress], and hands [opts.kind]
    back as the caller gave it. *)
Theorem entry_points_keep_to_their_flow
    (hre : HardhatRuntimeEnvironment) (ImplFactory : ContractFactory)
    (opts : Options) (target : option string) (s : State) :
  let proxyRun := deployProxyImpl hre ImplFactory opts target s in
  let beaconRun := deployBeaconImpl hre ImplFactory opts target s in
  never callsAssertNotProxy (trace proxyRun) = true
  /\ never callsGetImplementationAddressFromBeacon (trace proxyRun) = true
  /\ never callsProcessProxyKind (trace beaconRun) = true
  /\ never callsGetImplementationAddress (trace beaconRun) = true
  /\ (forall d, result beaconRun = Ok d -> impl_kind d = kind opts).
Proof.
  intros proxyRun beaconRun. subst proxyRun beaconRun.
  unfold_orchestrator. unfold never.
  split; [destruct target; run_all; reflexivity |].
  split; [destruct target; run_all; reflexivity |].
  split; [destruct target; run_all; reflexivity |].
  split; [destruct target; run_all; reflexivity |].
  intros d. destruct target; run_all; intros H;
    try discriminate H; inversion H; reflexivity.
Qed.

(** X10: [getDeployData] leaves the external state alone; when the
    validations cannot be read it fails with that exception before the
    factory is looked at; and it returns [d] exactly when each field of
    [d] is the answer of the collaborator the source assigns it from, with
    the provider of [hre] and [withDefaults(opts)]. *)
Theorem getDeployData_resolves
    (hre : HardhatRuntimeEnvironment) (ImplFactory : ContractFactory)
    (opts : Options) (s : State) (d : DeployData) :
  let run := getDeployData hre ImplFactory opts s in
  final run = s
  /\ (forall e,
        readValidations hre (env s) = Err e ->
        result run = Err e /\ trace run = [EReadValidations hre (Err e)])
  /\ (result run = Ok d <->
      provider d = network_provider hre
      /\ readValidations hre (env s) = Ok (validations d)
      /\ getUnlinkedBytecode (validations d) (bytecode ImplFactory)
         = Ok (unlinkedBytecode d)
      /\ encodeDeploy ImplFactory (constructorArgs opts) = Ok (encodedArgs d)
      /\ getVersion (unlinkedBytecode d) (bytecode ImplFactory) (encodedArgs d)
         = Ok (version d)
      /\ getStorageLayout (validations d) (version d) = Ok (layout d)
      /\ fullOpts d = withDefaults opts).
Proof.
  intros run. subst run. unfold_orchestrator.
  split; [run_all; reflexivity |]. split.
  - intros e He. rewrite He. simpl. split; reflexivity.
  - split.
    + run_all; intros H; inversion H; subst; simpl; auto 10.
    + intros (Hp & Hv & Hu & Ha & Hver & Hl & Ho).
      rewrite Hv. simpl. rewrite Hu. simpl. rewrite Ha. simpl.
      rewrite Hver. simpl. rewrite Hl. simpl.
      destruct d; simpl in *; subst; reflexivity.
Qed.

(** X11: when [deploy] succeeded in a run of [deployImpl] that returns,
    the implementation address returned is the deployed one, [kind] is
    [opts.kind], and, with [getTxResponse] truthy and a transaction kept by
    [deploy], [txResponse] is that transaction and [getTransaction] is not
    called. *)
Theorem fresh_deployment_hands_out_its_transaction
    (hre : HardhatRuntimeEnvironment) (deployData : DeployData)
    (ImplFactory : ContractFactory) (opts : Options)
    (currentImplAddress : option string) (s : State)
    (f : ContractFactory) (args : list ConstructorArg)
    (deployed : DeployResult) (d : DeployedImpl) :
  let run := deployImpl hre deployData ImplFactory opts currentImplAddress s in
  In (EDeploy f args (Ok deployed)) (trace run) ->
  result run = Ok d ->
  impl d = dr_address deployed
  /\ impl_kind d = kind opts
  /\ (truthy (getTxResponse opts) = true ->
      forall t,
        dr_deployTransaction deployed = Some t ->
        txResponse d = Some (TxDirect t)
        /\ never callsGetTransaction (trace run) = true).
Proof.
  intros run. subst run. unfold_orchestrator. unfold never.
  destruct currentImplAddress; run_all; intros Hin Hd;
    try discriminate Hd; inversion Hd; subst; clear Hd;
    repeat match goal with
      | H : _ \/ _ |- _ => destruct H
      | H : False |- _ => destruct H
      end;
    try discriminate;
    match goal with H : _ = EDeploy _ _ _ |- _ =>
      inversion H; subst; clear H end;
    simpl; repeat split; try congruence;
    intros; try congruence;
    match goal with
    | H1 : dr_deployTransaction ?x = Some _,
      H2 : dr_deployTransaction ?x = _ |- _ =>
        rewrite H1 in H2; inversion H2; subst; split; reflexivity
    end.
Qed.

End Collaboration.

Section CollaborationRuns.
Import Double Fixtures.
Local Open Scope string_scope.

Lemma getTransaction_failure_is_not_raised_witness :
  let run := deployImpl (C := unreachable) "hardhat" dataV2tx V2
               askTransaction (Some "0xImpl0") upgraded in
  result run
  = Ok (mkDeployedImpl "0xImpl1" None
          (Some (TxPromise (Err (ExternalError "node unreachable")))))
  /\ lastEvent (trace run)
     = Some (EGetTransaction "hardhat" "0xTx1"
               (Err (ExternalError "node unreachable"))).
Proof.
  intros run.
  destruct (getTransaction_failure_is_not_raised (C := unreachable)
              "hardhat" dataV2tx V2 askTransaction (Some "0xImpl0") upgraded
              "hardhat" "0xTx1" (Err (ExternalError "node unreachable")))
    as (_ & _ & _ & Hlast & _ & d & Hd & Htx).
  - vm_compute. do 6 right. left. reflexivity.
  - split; [| exact Hlast].
    fold run in Hd. rewrite Hd. f_equal.
    destruct d as [i k tx]. simpl in Htx. subst tx.
    vm_compute in Hd. inversion Hd. reflexivity.
Defined.

Lemma no_transaction_lookup_unless_requested_witness :
  never callsGetTransaction
    (trace (deployProxyImpl "hardhat" V2 noOptions (Some "0xProxy") upgraded))
  = true
  /\ forall d,
       result (deployProxyImpl "hardhat" V2 noOptions (Some "0xProxy") upgraded)
       = Ok d ->
       txResponse d = None.
Proof.
  apply (no_transaction_lookup_unless_requested (C := collaborators)
           "hardhat" V2 noOptions (Some "0xProxy") upgraded eq_refl).
Defined.

Lemma layout_lookup_failure_blocks_upgrade_witness :
  let run := deployImpl "hardhat" dataV2skip V2 skipStorageCheck
               (Some "0xElsewhere") live in
  result run = Err UnrecordedImplementationError
  /\ never callsAssertStorageUpgradeSafe (trace run) = true
  /\ never callsFetchOrDeploy (trace run) = true
  /\ never callsDeploy (trace run) = true
  /\ final run = live.
Proof.
  intros run.
  apply (layout_lookup_failure_blocks_upgrade (C := collaborators)
           "hardhat" dataV2skip V2 skipStorageCheck "0xElsewhere" live
           UnrecordedImplementationError).
  - reflexivity.
  - right. exists "hardhat". split; reflexivity.
Defined.

Lemma every_step_runs_once_witness :
  let t := trace (deployProxyImpl "hardhat" V2 skipStorageCheck
                    (Some "0xProxy") live) in
  count callsAssertUpgradeSafe t = 1
  /\ count callsGetStorageLayoutForAddress t = 1
  /\ count callsAssertStorageUpgradeSafe t = 0
  /\ count callsFetchOrDeploy t = 1
  /\ count callsProcessProxyKind t = 1.
Proof.
  intros t.
  destruct (every_step_runs_once (C := collaborators)
              "hardhat" V2 skipStorageCheck (Some "0xProxy") live)
    as ((Honce & Hkind) & _).
  destruct (Honce eq_refl) as (_ & Hsafe & _ & _ & Hlayout & Hcheck & Hfetch).
  split; [exact Hsafe |]. split; [exact Hlayout |].
  split; [exact Hcheck |]. split; [exact Hfetch |].
  exact (Hkind eq_refl).
Defined.

Lemma calls_are_fed_from_earlier_answers_witness :
  fedFrom "hardhat" V2 withArgs (Some "0xProxy")
    (trace (deployProxyImpl "hardhat" V2 withArgs (Some "0xProxy") live))
    (EDeploy V2 ["1000"; "0xOwner"]
       (Ok (mkDeployResult "0xImpl1" (Some "0xTx1") (Some "0xTx1")))).
Proof.
  apply (proj1 (calls_are_fed_from_earlier_answers (C := collaborators)
                  "hardhat" V2 withArgs (Some "0xProxy") live _)).
  vm_compute. do 15 right. left. reflexivity.
Defined.

Lemma one_provider_throughout_witness :
  "mainnet" = @network_provider types collaborators "mainnet".
Proof.
  apply (proj2 (one_provider_throughout (C := collaborators)
                  "mainnet" V2 noOptions (Some "0xBeacon") live
                  (@EGetImplementationAddressFromBeacon types "mainnet"
                     "0xBeacon" (Ok "0xImpl0"))
                  "mainnet" eq_refl)).
  vm_compute. do 7 right. left. reflexivity.
Defined.

Lemma deployCallback_formats_before_deploying_witness :
  let run := deployCallback dataV2 V2 live in
  trace run
  = [EFormatMinimal V2 (Ok ["function total()"; "function pause()"]);
     EDeploy V2 []
       (Ok (mkDeployResult "0xImpl1" (Some "0xTx1") (Some "0xTx1")))]
  /\ env (final run) = 1.
Proof.
  intros run.
  destruct (deployCallback_formats_before_deploying (C := collaborators)
              dataV2 V2 live) as (_ & _ & Hok).
  destruct (Hok ["function total()"; "function pause()"] eq_refl)
    as (Htrace & Henv & _).
  split; [exact Htrace | exact Henv].
Defined.

Lemma entry_points_keep_to_their_flow_witness :
  result (deployBeaconImpl "hardhat" V2 requestUups (Some "0xBeacon") live)
  = Ok (mkDeployedImpl "0xImpl1" (Some uups) None)
  /\ impl_kind (mkDeployedImpl "0xImpl1" (Some uups) None) = kind requestUups.
Proof.
  split; [reflexivity |].
  destruct (entry_points_keep_to_their_flow (C := collaborators)
              "hardhat" V2 requestUups (Some "0xBeacon") live)
    as (_ & _ & _ & _ & Hkind).
  apply Hkind. reflexivity.
Defined.

Lemma getDeployData_resolves_witness :
  result (getDeployData "hardhat" V2 askTransaction live) = Ok dataV2tx
  /\ final (getDeployData "hardhat" V2 askTransaction live) = live.
Proof.
  destruct (getDeployData_resolves (C := collaborators)
              "hardhat" V2 askTransaction live dataV2tx) as (Hframe & _ & Hiff).
  split; [| exact Hframe].
  apply Hiff. repeat split.
Defined.

Lemma fresh_deployment_hands_out_its_transaction_witness :
  let d := mkDeployedImpl "0xImpl1" None (Some (TxDirect "0xTx1")) in
  impl d = "0xImpl1"
  /\ txResponse d = Some (TxDirect "0xTx1")
  /\ never callsGetTransaction
       (trace (deployImpl "hardhat" dataV2tx V2 askTransaction
                 (Some "0xImpl0") live)) = true.
Proof.
  intros d.
  destruct (fresh_deployment_hands_out_its_transaction (C := collaborators)
              "hardhat" dataV2tx V2 askTransaction (Some "0xImpl0") live
              V2 []
              (@mkDeployResult types "0xImpl1" (Some "0xTx1") (Some "0xTx1")) d)
    as (Himpl & _ & Htx).
  - vm_compute. do 7 right. left. reflexivity.
  - reflexivity.
  - destruct (Htx eq_refl "0xTx1" eq_refl) as (Hdirect & Hnever).
    split; [exact Himpl |]. split; [exact Hdirect | exact Hnever].
Defined.

End CollaborationRuns.
